(** * three-good-godrays: a shallow embedding of [src/index.ts]

    The TypeScript module defines two fullscreen passes (the illumination
    raymarcher and the compositor) and [GodraysPass], which owns the
    intermediate render target and drives both.  The objects are mutable and
    methods may throw, so every method is embedded as a computation in a state
    monad whose result is either a normal completion or a thrown error; the
    state reached at the moment of a throw is kept, as it is in JavaScript.

    Conventions.
    - A JavaScript [number] is an exact rational ([Q]).  The only arithmetic of
      this module is [Math.ceil(x * 0.5)].  On doubles the product is exact
      down to [2^-1022] and rounds within the subnormals below that, which
      [Math.ceil] does not see, except for the one positive double below
      [2^-1073], whose half rounds to zero.  NaN and the infinities are
      outside the model.
    - A parameter declared as [number] can hold [undefined] at run time: a
      partial record may carry a key whose value is [undefined], and object
      spread copies it.  Parameters and the uniforms they are assigned to are
      therefore numbers-or-[undefined].
    - Objects that the host owns and the passes only hold a reference to
      (textures, the light's and camera's vectors and matrices) are modelled
      by their identity; objects a pass creates and nobody else aliases are
      modelled by value.
    - The fragment and vertex shaders are imported from files that are not part
      of [src/] and are not modelled; the draw calls record which material was
      drawn, with which uniforms, into which target. *)

From Stdlib Require Import ZArith QArith Qround List String Bool Lia.
Import ListNotations.

Open Scope Q_scope.

Definition number := Q.

(** A value that may be [undefined]. *)
Inductive orUndefined (A : Type) : Type :=
| undefined
| defined (a : A).

Arguments undefined {A}.
Arguments defined {A} a.

(** What a parameter or uniform declared as [number] holds at run time. *)
Definition numberOrUndefined : Type := orUndefined number.

Definition numberValue (v : Q) : numberOrUndefined := defined v.
Coercion numberValue : Q >-> numberOrUndefined.

(** ** Completions and the method monad *)

Inductive JsError : Type :=
| Error (message : string)
| TypeError (message : string).

Inductive Completion (A : Type) : Type :=
| Normal (a : A)
| Throw (e : JsError).

Arguments Normal {A} a.
Arguments Throw {A} e.

Definition M (S A : Type) : Type := S -> Completion A * S.

Definition ret {S A} (a : A) : M S A := fun s => (Normal a, s).

Definition bind {S A B} (m : M S A) (k : A -> M S B) : M S B :=
  fun s =>
    match m s with
    | (Normal a, s') => k a s'
    | (Throw e, s') => (Throw e, s')
    end.

Definition throw {S A} (e : JsError) : M S A := fun s => (Throw e, s).

Definition get {S} : M S S := fun s => (Normal s, s).

Definition modify {S} (f : S -> S) : M S unit := fun s => (Normal tt, f s).

Definition when {S} (b : bool) (m : M S unit) : M S unit :=
  if b then m else ret tt.

(** Runs a method of a sub-object inside the object that holds it. *)
Definition zoom {S T A} (prj : S -> T) (upd : T -> S -> S) (m : M T A) : M S A :=
  fun s => let (r, t') := m (prj s) in (r, upd t' s).

Declare Scope method_scope.
Delimit Scope method_scope with method.
Notation "x <- m ;; k" := (bind m (fun x => k))
  (at level 61, m at next level, right associativity) : method_scope.
Notation "m ;; k" := (bind m (fun _ => k))
  (at level 61, right associativity) : method_scope.
Open Scope method_scope.

Definition completion {S A} (r : Completion A * S) : Completion A := fst r.
Definition state_after {S A} (r : Completion A * S) : S := snd r.

(** [a ?? b] on a possibly absent value. *)
Definition nullish {A} (o : option A) (d : A) : A :=
  match o with Some a => a | None => d end.

(** Reading a key that an object may lack: [undefined] when it does. *)
Definition readKey {A} (key : option (orUndefined A)) : orUndefined A :=
  match key with Some v => v | None => undefined end.

(** [v ?? d] on a value that may be [undefined]. *)
Definition orElse {A} (v : orUndefined A) (d : A) : A :=
  match v with defined a => a | undefined => d end.

(** ** The parts of three.js that the module touches *)

Module THREE.

Inductive DepthPackingStrategies : Type :=
| BasicDepthPacking
| RGBADepthPacking.

(** The numeric constants behind the enumeration; the source tests the
    argument for truthiness before it compares it. *)
Definition packingValue (d : DepthPackingStrategies) : Z :=
  match d with
  | BasicDepthPacking => 3200
  | RGBADepthPacking => 3201
  end.

Definition truthy (d : DepthPackingStrategies) : bool :=
  negb (packingValue d =? 0)%Z.

Definition strictNeq (d e : DepthPackingStrategies) : bool :=
  negb (packingValue d =? packingValue e)%Z.

(** Texture objects, by identity. *)
Inductive Texture : Type :=
| HostTexture (id : nat)
| GodraysTargetTexture
| BlueNoiseTexture.

(** [Vector3] and [Matrix4]: the host's objects by identity, the ones a
    material constructs for itself by value. *)
Inductive Vector3 : Type :=
| HostVector3 (id : nat)
| NewVector3 (x y z : number).

Inductive Matrix4 : Type :=
| HostMatrix4 (id : nat)
| NewMatrix4.

Record Vector2 : Type := { x : number; y : number }.

Module Color.
Record t : Type := { r : number; g : number; b : number }.
(** [new THREE.Color(0xffffff)] *)
Definition white : t := {| r := 1; g := 1; b := 1 |}.
(** [new THREE.Color(c)] for a colour [c]: a fresh object with the same
    components. *)
Definition copy (c : t) : t := {| r := r c; g := g c; b := b c |}.
End Color.

Module WebGLRenderTarget.
Record t : Type := { texture : Texture; width : number; height : number }.
Definition setSize (w h : number) (self : t) : t :=
  {| texture := texture self; width := w; height := h |}.
End WebGLRenderTarget.

Module ShadowCamera.
Record t : Type := { near : number; far : number }.
End ShadowCamera.

Module PointLightShadow.
Record t : Type :=
  { map : option WebGLRenderTarget.t; camera : ShadowCamera.t }.
End PointLightShadow.

(** [castShadow] says whether shadows are enabled on the light; the renderer
    creates the shadow map only for a light that casts shadows.  The shadow
    object exists either way.  The module reads [position] and [shadow] and
    never [castShadow]. *)
Module PointLight.
Record t : Type :=
  { position : Vector3;
    castShadow : bool;
    shadow : option PointLightShadow.t }.
End PointLight.

Module Camera.
Record t : Type :=
  { position : Vector3;
    projectionMatrixInverse : Matrix4;
    matrixWorld : Matrix4 }.
End Camera.

End THREE.

Definition GODRAYS_RESOLUTION_SCALE : number := 1 # 2.

Module Math.
Definition ceil (v : number) : number := inject_Z (Qceiling v).
End Math.

(** ** Parameters *)

Module GodraysPassProps.
Record t : Type :=
  { pointLight : THREE.PointLight.t; camera : THREE.Camera.t }.
End GodraysPassProps.

Module GodraysPassParams.
Record t : Type :=
  { density : numberOrUndefined;
    maxDensity : numberOrUndefined;
    edgeStrength : numberOrUndefined;
    edgeRadius : numberOrUndefined;
    distanceAttenuation : numberOrUndefined;
    color : THREE.Color.t }.
End GodraysPassParams.

(** [Partial<GodraysPassParams>]: each key is absent ([None]) or present, and
    a key that is present holds a value of its declared type or [undefined]. *)
Module PartialParams.
Record t : Type :=
  { density : option numberOrUndefined;
    maxDensity : option numberOrUndefined;
    edgeStrength : option numberOrUndefined;
    edgeRadius : option numberOrUndefined;
    distanceAttenuation : option numberOrUndefined;
    color : option (orUndefined THREE.Color.t) }.

(** The object literal [{}]. *)
Definition empty : t :=
  {| density := None; maxDensity := None; edgeStrength := None;
     edgeRadius := None; distanceAttenuation := None; color := None |}.

(** A full record passed where a partial one is expected. *)
Definition ofParams (p : GodraysPassParams.t) : t :=
  {| density := Some (GodraysPassParams.density p);
     maxDensity := Some (GodraysPassParams.maxDensity p);
     edgeStrength := Some (GodraysPassParams.edgeStrength p);
     edgeRadius := Some (GodraysPassParams.edgeRadius p);
     distanceAttenuation := Some (GodraysPassParams.distanceAttenuation p);
     color := Some (defined (GodraysPassParams.color p)) |}.
End PartialParams.

Definition defaultParams : GodraysPassParams.t :=
  {| GodraysPassParams.density := 1 / 128;
     GodraysPassParams.maxDensity := 1 # 2;
     GodraysPassParams.edgeStrength := 2;
     GodraysPassParams.edgeRadius := 1;
     GodraysPassParams.distanceAttenuation := 5 # 1000;
     GodraysPassParams.color := THREE.Color.white |}.

(** The value of key [k] in [{ ...defaults, ...partial }]: the partial
    record's value when it has the key, [undefined] included. *)
Definition spread {A} (dflt : A) (partial : option A) : A :=
  match partial with Some v => v | None => dflt end.

Definition populateParams (partialParams : PartialParams.t) : GodraysPassParams.t :=
  {| GodraysPassParams.density :=
       spread (GodraysPassParams.density defaultParams)
              (PartialParams.density partialParams);
     GodraysPassParams.maxDensity :=
       spread (GodraysPassParams.maxDensity defaultParams)
              (PartialParams.maxDensity partialParams);
     GodraysPassParams.edgeStrength :=
       spread (GodraysPassParams.edgeStrength defaultParams)
              (PartialParams.edgeStrength partialParams);
     GodraysPassParams.edgeRadius :=
       spread (GodraysPassParams.edgeRadius defaultParams)
              (PartialParams.edgeRadius partialParams);
     GodraysPassParams.distanceAttenuation :=
       spread (GodraysPassParams.distanceAttenuation defaultParams)
              (PartialParams.distanceAttenuation partialParams);
     GodraysPassParams.color :=
       THREE.Color.copy
         (orElse (readKey (PartialParams.color partialParams))
                 (GodraysPassParams.color defaultParams)) |}.

(** ** The illumination stage *)

Module GodraysMaterial.

(** The uniform bundle of the raymarching material. *)
Record t : Type :=
  { density : numberOrUndefined;
    maxDensity : numberOrUndefined;
    distanceAttenuation : numberOrUndefined;
    sceneDepth : option THREE.Texture;
    lightPos : THREE.Vector3;
    cameraPos : THREE.Vector3;
    resolution : THREE.Vector2;
    projectionMatrixInv : THREE.Matrix4;
    viewMatrixInv : THREE.Matrix4;
    depthCube : option THREE.Texture;
    mapSize : number;
    pointLightCameraNear : number;
    pointLightCameraFar : number;
    blueNoise : option THREE.Texture;
    noiseResolution : THREE.Vector2 }.

(** The constructor; the blue-noise texture arrives later, through
    [blueNoiseLoaded]. *)
Definition new : t :=
  {| density := 1 / 128;
     maxDensity := 1 # 2;
     distanceAttenuation := 5 # 1000;
     sceneDepth := None;
     lightPos := THREE.NewVector3 0 0 0;
     cameraPos := THREE.NewVector3 0 0 0;
     resolution := {| THREE.x := 1; THREE.y := 1 |};
     projectionMatrixInv := THREE.NewMatrix4;
     viewMatrixInv := THREE.NewMatrix4;
     depthCube := None;
     mapSize := 1;
     pointLightCameraNear := 1 # 10;
     pointLightCameraFar := 1000;
     blueNoise := None;
     noiseResolution := {| THREE.x := 1; THREE.y := 1 |} |}.

(** The continuation of [getBlueNoiseTexture()]. *)
Definition blueNoiseLoaded (imageWidth imageHeight : number) (u : t) : t :=
  {| density := density u;
     maxDensity := maxDensity u;
     distanceAttenuation := distanceAttenuation u;
     sceneDepth := sceneDepth u;
     lightPos := lightPos u;
     cameraPos := cameraPos u;
     resolution := resolution u;
     projectionMatrixInv := projectionMatrixInv u;
     viewMatrixInv := viewMatrixInv u;
     depthCube := depthCube u;
     mapSize := mapSize u;
     pointLightCameraNear := pointLightCameraNear u;
     pointLightCameraFar := pointLightCameraFar u;
     blueNoise := Some THREE.BlueNoiseTexture;
     noiseResolution := {| THREE.x := imageWidth; THREE.y := imageHeight |} |}.

Definition set_resolution (v : THREE.Vector2) (u : t) : t :=
  {| density := density u;
     maxDensity := maxDensity u;
     distanceAttenuation := distanceAttenuation u;
     sceneDepth := sceneDepth u;
     lightPos := lightPos u;
     cameraPos := cameraPos u;
     resolution := v;
     projectionMatrixInv := projectionMatrixInv u;
     viewMatrixInv := viewMatrixInv u;
     depthCube := depthCube u;
     mapSize := mapSize u;
     pointLightCameraNear := pointLightCameraNear u;
     pointLightCameraFar := pointLightCameraFar u;
     blueNoise := blueNoise u;
     noiseResolution := noiseResolution u |}.

Definition set_sceneDepth (d : option THREE.Texture) (u : t) : t :=
  {| density := density u;
     maxDensity := maxDensity u;
     distanceAttenuation := distanceAttenuation u;
     sceneDepth := d;
     lightPos := lightPos u;
     cameraPos := cameraPos u;
     resolution := resolution u;
     projectionMatrixInv := projectionMatrixInv u;
     viewMatrixInv := viewMatrixInv u;
     depthCube := depthCube u;
     mapSize := mapSize u;
     pointLightCameraNear := pointLightCameraNear u;
     pointLightCameraFar := pointLightCameraFar u;
     blueNoise := blueNoise u;
     noiseResolution := noiseResolution u |}.

End GodraysMaterial.

(** ** The compositor material and the renderer *)

Module GodraysCompositorMaterialProps.
Record t : Type :=
  { godrays : THREE.Texture;
    edgeStrength : numberOrUndefined;
    edgeRadius : numberOrUndefined;
    color : THREE.Color.t }.
End GodraysCompositorMaterialProps.

Module GodraysCompositorMaterial.

Record t : Type :=
  { godrays : THREE.Texture;
    sceneDiffuse : option THREE.Texture;
    sceneDepth : option THREE.Texture;
    edgeStrength : numberOrUndefined;
    edgeRadius : numberOrUndefined;
    color : THREE.Color.t;
    resolution : THREE.Vector2 }.

Definition updateUniforms (edgeStrength' edgeRadius' : numberOrUndefined)
    (color' : THREE.Color.t) (u : t) : t :=
  {| godrays := godrays u;
     sceneDiffuse := sceneDiffuse u;
     sceneDepth := sceneDepth u;
     edgeStrength := edgeStrength';
     edgeRadius := edgeRadius';
     color := color';
     resolution := resolution u |}.

Definition new (p : GodraysCompositorMaterialProps.t) : t :=
  updateUniforms
    (GodraysCompositorMaterialProps.edgeStrength p)
    (GodraysCompositorMaterialProps.edgeRadius p)
    (GodraysCompositorMaterialProps.color p)
    {| godrays := GodraysCompositorMaterialProps.godrays p;
       sceneDiffuse := None;
       sceneDepth := None;
       edgeStrength := GodraysCompositorMaterialProps.edgeStrength p;
       edgeRadius := GodraysCompositorMaterialProps.edgeRadius p;
       color := GodraysCompositorMaterialProps.color p;
       resolution := {| THREE.x := 1; THREE.y := 1 |} |}.

Definition setSize (width height : number) (u : t) : t :=
  {| godrays := godrays u;
     sceneDiffuse := sceneDiffuse u;
     sceneDepth := sceneDepth u;
     edgeStrength := edgeStrength u;
     edgeRadius := edgeRadius u;
     color := color u;
     resolution := {| THREE.x := width; THREE.y := height |} |}.

Definition set_sceneDiffuse (d : option THREE.Texture) (u : t) : t :=
  {| godrays := godrays u;
     sceneDiffuse := d;
     sceneDepth := sceneDepth u;
     edgeStrength := edgeStrength u;
     edgeRadius := edgeRadius u;
     color := color u;
     resolution := resolution u |}.

Definition set_sceneDepth (d : option THREE.Texture) (u : t) : t :=
  {| godrays := godrays u;
     sceneDiffuse := sceneDiffuse u;
     sceneDepth := d;
     edgeStrength := edgeStrength u;
     edgeRadius := edgeRadius u;
     color := color u;
     resolution := resolution u |}.

End GodraysCompositorMaterial.

(** The renderer is the host's.  What the passes do to it is select a render
    target and draw their fullscreen material; the renderer keeps the list of
    draw calls in submission order, each with the target it went to ([None] is
    the screen) and the material's uniforms at that moment. *)
Module WebGLRenderer.

Inductive FullscreenMaterial : Type :=
| Illumination (u : GodraysMaterial.t)
| Compositor (u : GodraysCompositorMaterial.t).

Record DrawCall : Type :=
  { target : option THREE.WebGLRenderTarget.t;
    fullscreenMaterial : FullscreenMaterial }.

Record t : Type :=
  { renderTarget : option THREE.WebGLRenderTarget.t;
    drawCalls : list DrawCall }.

Definition setRenderTarget (rt : option THREE.WebGLRenderTarget.t) : M t unit :=
  modify (fun r => {| renderTarget := rt; drawCalls := drawCalls r |}).

Definition render (m : FullscreenMaterial) : M t unit :=
  modify (fun r =>
    {| renderTarget := renderTarget r;
       drawCalls :=
         drawCalls r ++ [ {| target := renderTarget r; fullscreenMaterial := m |} ] |}).

End WebGLRenderer.

(** A method that receives the renderer runs on the pair of the renderer and
    its own object. *)
Definition onRenderer {S A} (m : M WebGLRenderer.t A) : M (WebGLRenderer.t * S) A :=
  zoom fst (fun r s => (r, snd s)) m.

Definition onSelf {S A} (m : M S A) : M (WebGLRenderer.t * S) A :=
  zoom snd (fun x s => (fst s, x)) m.

Module GodraysIllumPass.

Record t : Type :=
  { material : GodraysMaterial.t;
    shadowMapSet : bool;
    props : GodraysPassProps.t;
    lastParams : GodraysPassParams.t }.

Definition set_material (m : GodraysMaterial.t) (self : t) : t :=
  {| material := m;
     shadowMapSet := shadowMapSet self;
     props := props self;
     lastParams := lastParams self |}.

Definition set_shadowMapSet (v : bool) (self : t) : t :=
  {| material := material self;
     shadowMapSet := v;
     props := props self;
     lastParams := lastParams self |}.

(** The object [props] refers to belongs to the host: the light and the
    camera it names change under the pass from frame to frame. *)
Definition set_props (p : GodraysPassProps.t) (self : t) : t :=
  {| material := material self;
     shadowMapSet := shadowMapSet self;
     props := p;
     lastParams := lastParams self |}.

(** The assignments of [updateUniforms], once the shadow is known to be
    there.  [sceneDepth], [resolution], [blueNoise] and [noiseResolution]
    are not written.  The shadow camera's [near] and [far] are numbers, so the
    [?? 0.1] and [?? 1000] of the source never apply; [depthCube] is [null]
    and [mapSize] is [1] while the shadow map is missing. *)
Definition assignUniforms (pointLight : THREE.PointLight.t)
    (camera : THREE.Camera.t) (pointLightShadow : THREE.PointLightShadow.t)
    (params : GodraysPassParams.t) (u : GodraysMaterial.t) : GodraysMaterial.t :=
  let depthCube :=
    option_map THREE.WebGLRenderTarget.texture
               (THREE.PointLightShadow.map pointLightShadow) in
  let mapSize :=
    nullish (option_map THREE.WebGLRenderTarget.height
                        (THREE.PointLightShadow.map pointLightShadow)) 1 in
  {| GodraysMaterial.density := GodraysPassParams.density params;
     GodraysMaterial.maxDensity := GodraysPassParams.maxDensity params;
     GodraysMaterial.distanceAttenuation :=
       GodraysPassParams.distanceAttenuation params;
     GodraysMaterial.sceneDepth := GodraysMaterial.sceneDepth u;
     GodraysMaterial.lightPos := THREE.PointLight.position pointLight;
     GodraysMaterial.cameraPos := THREE.Camera.position camera;
     GodraysMaterial.resolution := GodraysMaterial.resolution u;
     GodraysMaterial.projectionMatrixInv :=
       THREE.Camera.projectionMatrixInverse camera;
     GodraysMaterial.viewMatrixInv := THREE.Camera.matrixWorld camera;
     GodraysMaterial.depthCube := depthCube;
     GodraysMaterial.mapSize := mapSize;
     GodraysMaterial.pointLightCameraNear :=
       THREE.ShadowCamera.near (THREE.PointLightShadow.camera pointLightShadow);
     GodraysMaterial.pointLightCameraFar :=
       THREE.ShadowCamera.far (THREE.PointLightShadow.camera pointLightShadow);
     GodraysMaterial.blueNoise := GodraysMaterial.blueNoise u;
     GodraysMaterial.noiseResolution := GodraysMaterial.noiseResolution u |}.

Definition updateUniforms (p : GodraysPassProps.t)
    (params : GodraysPassParams.t) : M t unit :=
  let pointLight := GodraysPassProps.pointLight p in
  let camera := GodraysPassProps.camera p in
  match THREE.PointLight.shadow pointLight with
  | None => throw (Error "Point light must have shadow")
  | Some pointLightShadow =>
      modify (fun self =>
        set_material
          (assignUniforms pointLight camera pointLightShadow params
                          (material self)) self)
  end.

(** [new GodraysIllumPass(props, params)]: no object exists when the
    constructor throws. *)
Definition new (p : GodraysPassProps.t) (params : GodraysPassParams.t)
    : Completion t :=
  let self :=
    {| material := GodraysMaterial.new;
       shadowMapSet := false;
       props := p;
       lastParams := params |} in
  match updateUniforms p params self with
  | (Normal _, self') => Normal self'
  | (Throw e, _) => Throw e
  end.

Definition setSize (width height : number) : M t unit :=
  modify (fun self =>
    set_material
      (GodraysMaterial.set_resolution
         {| THREE.x := Math.ceil (width * GODRAYS_RESOLUTION_SCALE);
            THREE.y := Math.ceil (height * GODRAYS_RESOLUTION_SCALE) |}
         (material self)) self).

Definition unsupportedPacking
    (depthPacking : option THREE.DepthPackingStrategies) : bool :=
  match depthPacking with
  | None => false
  | Some d => THREE.truthy d && THREE.strictNeq d THREE.BasicDepthPacking
  end.

Definition setDepthTexture (depthTexture : THREE.Texture)
    (depthPacking : option THREE.DepthPackingStrategies) : M t unit :=
  modify (fun self =>
    set_material
      (GodraysMaterial.set_sceneDepth (Some depthTexture) (material self))
      self) ;;
  when (unsupportedPacking depthPacking)
       (throw (Error "Only BasicDepthPacking is supported")).

(** The guard of [render]:
    [!this.shadowMapSet && this.props.pointLight.shadow.map?.texture].
    The right operand is evaluated only when the flag is unset, and reading
    [.map] of an absent shadow is a [TypeError]. *)
Definition shadowMapReady : M t bool :=
  self <- get ;;
  if shadowMapSet self then ret false
  else
    match THREE.PointLight.shadow (GodraysPassProps.pointLight (props self)) with
    | None => throw (TypeError "Cannot read properties of null (reading 'map')")
    | Some sh =>
        match THREE.PointLightShadow.map sh with
        | Some _ => ret true
        | None => ret false
        end
    end.

(** The part of [render] before the draw call. *)
Definition beforeRender : M t unit :=
  ready <- shadowMapReady ;;
  when ready
    (self <- get ;;
     updateUniforms (props self) (lastParams self) ;;
     modify (set_shadowMapSet true)).

Definition render (_inputBuffer outputBuffer : THREE.WebGLRenderTarget.t)
    : M (WebGLRenderer.t * t) unit :=
  onSelf beforeRender ;;
  onRenderer (WebGLRenderer.setRenderTarget (Some outputBuffer)) ;;
  self <- onSelf get ;;
  onRenderer (WebGLRenderer.render (WebGLRenderer.Illumination (material self))).

End GodraysIllumPass.

(** ** The compositor stage *)

Module GodraysCompositorPass.

Record t : Type := { fullscreenMaterial : GodraysCompositorMaterial.t }.

Definition new (p : GodraysCompositorMaterialProps.t) : t :=
  {| fullscreenMaterial := GodraysCompositorMaterial.new p |}.

Definition onMaterial (f : GodraysCompositorMaterial.t -> GodraysCompositorMaterial.t)
    : M t unit :=
  modify (fun self => {| fullscreenMaterial := f (fullscreenMaterial self) |}).

Definition updateUniforms (params : GodraysPassParams.t) : M t unit :=
  onMaterial
    (GodraysCompositorMaterial.updateUniforms
       (GodraysPassParams.edgeStrength params)
       (GodraysPassParams.edgeRadius params)
       (GodraysPassParams.color params)).

Definition render (inputBuffer : THREE.WebGLRenderTarget.t)
    (outputBuffer : option THREE.WebGLRenderTarget.t)
    : M (WebGLRenderer.t * t) unit :=
  onSelf (onMaterial
    (GodraysCompositorMaterial.set_sceneDiffuse
       (Some (THREE.WebGLRenderTarget.texture inputBuffer)))) ;;
  onRenderer (WebGLRenderer.setRenderTarget outputBuffer) ;;
  self <- onSelf get ;;
  onRenderer
    (WebGLRenderer.render (WebGLRenderer.Compositor (fullscreenMaterial self))).

Definition setDepthTexture (depthTexture : THREE.Texture)
    (depthPacking : option THREE.DepthPackingStrategies) : M t unit :=
  when (GodraysIllumPass.unsupportedPacking depthPacking)
       (throw (Error "Only BasicDepthPacking is supported")) ;;
  onMaterial (GodraysCompositorMaterial.set_sceneDepth (Some depthTexture)).

Definition setSize (width height : number) : M t unit :=
  onMaterial (GodraysCompositorMaterial.setSize width height).

End GodraysCompositorPass.

(** ** The exported pass *)

Module GodraysPass.

(** [this.props] is the very object the illumination pass keeps as its own
    [props]; it is stored once, there. *)
Record t : Type :=
  { godraysRenderTarget : THREE.WebGLRenderTarget.t;
    illumPass : GodraysIllumPass.t;
    compositorPass : GodraysCompositorPass.t;
    renderToScreen : bool }.

Definition props (self : t) : GodraysPassProps.t :=
  GodraysIllumPass.props (illumPass self).

Definition set_illumPass (p : GodraysIllumPass.t) (self : t) : t :=
  {| godraysRenderTarget := godraysRenderTarget self;
     illumPass := p;
     compositorPass := compositorPass self;
     renderToScreen := renderToScreen self |}.

Definition set_compositorPass (p : GodraysCompositorPass.t) (self : t) : t :=
  {| godraysRenderTarget := godraysRenderTarget self;
     illumPass := illumPass self;
     compositorPass := p;
     renderToScreen := renderToScreen self |}.

Definition set_godraysRenderTarget (rt : THREE.WebGLRenderTarget.t) (self : t) : t :=
  {| godraysRenderTarget := rt;
     illumPass := illumPass self;
     compositorPass := compositorPass self;
     renderToScreen := renderToScreen self |}.

Definition set_renderToScreen (v : bool) (self : t) : t :=
  {| godraysRenderTarget := godraysRenderTarget self;
     illumPass := illumPass self;
     compositorPass := compositorPass self;
     renderToScreen := v |}.

Definition onIllum {A} (m : M GodraysIllumPass.t A) : M t A :=
  zoom illumPass set_illumPass m.

Definition onCompositor {A} (m : M GodraysCompositorPass.t A) : M t A :=
  zoom compositorPass set_compositorPass m.

Definition setParams (partialParams : PartialParams.t) : M t unit :=
  let params := populateParams partialParams in
  self <- get ;;
  onIllum (GodraysIllumPass.updateUniforms (props self) params) ;;
  onCompositor (GodraysCompositorPass.updateUniforms params).

(** [new GodraysPass(light, camera, partialParams)] *)
Definition new (light : THREE.PointLight.t) (camera : THREE.Camera.t)
    (partialParams : PartialParams.t) : Completion t :=
  let godraysRenderTarget :=
    {| THREE.WebGLRenderTarget.texture := THREE.GodraysTargetTexture;
       THREE.WebGLRenderTarget.width := 1;
       THREE.WebGLRenderTarget.height := 1 |} in
  let props :=
    {| GodraysPassProps.pointLight := light;
       GodraysPassProps.camera := camera |} in
  let params := populateParams partialParams in
  match GodraysIllumPass.new props params with
  | Throw e => Throw e
  | Normal illumPass =>
      let compositorPass :=
        GodraysCompositorPass.new
          {| GodraysCompositorMaterialProps.godrays :=
               THREE.WebGLRenderTarget.texture godraysRenderTarget;
             GodraysCompositorMaterialProps.edgeStrength :=
               GodraysPassParams.edgeStrength params;
             GodraysCompositorMaterialProps.edgeRadius :=
               GodraysPassParams.edgeRadius params;
             GodraysCompositorMaterialProps.color :=
               GodraysPassParams.color params |} in
      let self :=
        {| godraysRenderTarget := godraysRenderTarget;
           illumPass := illumPass;
           compositorPass := compositorPass;
           renderToScreen := false |} in
      match setParams (PartialParams.ofParams params) self with
      | (Normal _, self') => Normal self'
      | (Throw e, _) => Throw e
      end
  end.

Definition onPass {A} (m : M (WebGLRenderer.t * GodraysIllumPass.t) A)
    : M (WebGLRenderer.t * t) A :=
  zoom (fun s => (fst s, illumPass (snd s)))
       (fun x s => (fst x, set_illumPass (snd x) (snd s))) m.

Definition onCompositorPass {A} (m : M (WebGLRenderer.t * GodraysCompositorPass.t) A)
    : M (WebGLRenderer.t * t) A :=
  zoom (fun s => (fst s, compositorPass (snd s)))
       (fun x s => (fst x, set_compositorPass (snd x) (snd s))) m.

Definition render (inputBuffer outputBuffer : THREE.WebGLRenderTarget.t)
    : M (WebGLRenderer.t * t) unit :=
  self <- onSelf get ;;
  onPass (GodraysIllumPass.render inputBuffer (godraysRenderTarget self)) ;;
  self <- onSelf get ;;
  onCompositorPass
    (GodraysCompositorPass.render inputBuffer
       (if renderToScreen self then None else Some outputBuffer)).

Definition setDepthTexture (depthTexture : THREE.Texture)
    (depthPacking : option THREE.DepthPackingStrategies) : M t unit :=
  onIllum (GodraysIllumPass.setDepthTexture depthTexture depthPacking) ;;
  onCompositor (GodraysCompositorPass.setDepthTexture depthTexture depthPacking).

Definition setSize (width height : number) : M t unit :=
  modify (fun self =>
    set_godraysRenderTarget
      (THREE.WebGLRenderTarget.setSize
         (Math.ceil (width * GODRAYS_RESOLUTION_SCALE))
         (Math.ceil (height * GODRAYS_RESOLUTION_SCALE))
         (godraysRenderTarget self)) self) ;;
  onIllum (GodraysIllumPass.setSize width height) ;;
  onCompositor (GodraysCompositorPass.setSize width height).

(** The blue-noise image finishes loading, some time after construction. *)
Definition blueNoiseLoaded (imageWidth imageHeight : number) (self : t) : t :=
  set_illumPass
    (GodraysIllumPass.set_material
       (GodraysMaterial.blueNoiseLoaded imageWidth imageHeight
          (GodraysIllumPass.material (illumPass self)))
       (illumPass self)) self.

(** What the host does between calls: the light and the camera that [props]
    refers to are its objects, and it moves the light, updates the camera
    matrices, lets the renderer create the shadow map, and so on. *)
Definition hostUpdates (light : THREE.PointLight.t) (camera : THREE.Camera.t)
    (self : t) : t :=
  set_illumPass
    (GodraysIllumPass.set_props
       {| GodraysPassProps.pointLight := light;
          GodraysPassProps.camera := camera |}
       (illumPass self)) self.

End GodraysPass.


(** ** States a host can reach, and a small scene to run the methods on *)

(** The pass as the host can have it in hand: constructed, then driven through
    its methods (whether they return or throw), with the host updating its
    light and camera and setting [renderToScreen] in between. *)
Inductive reachable : GodraysPass.t -> Prop :=
| reach_new light camera partialParams self :
    GodraysPass.new light camera partialParams = Normal self ->
    reachable self
| reach_setParams partialParams self :
    reachable self ->
    reachable (state_after (GodraysPass.setParams partialParams self))
| reach_setSize width height self :
    reachable self ->
    reachable (state_after (GodraysPass.setSize width height self))
| reach_setDepthTexture depthTexture depthPacking self :
    reachable self ->
    reachable (state_after
                 (GodraysPass.setDepthTexture depthTexture depthPacking self))
| reach_render inputBuffer outputBuffer renderer self :
    reachable self ->
    reachable (snd (state_after
                      (GodraysPass.render inputBuffer outputBuffer
                                          (renderer, self))))
| reach_hostUpdates light camera self :
    reachable self ->
    reachable (GodraysPass.hostUpdates light camera self)
| reach_renderToScreen v self :
    reachable self ->
    reachable (GodraysPass.set_renderToScreen v self)
| reach_blueNoiseLoaded imageWidth imageHeight self :
    reachable self ->
    reachable (GodraysPass.blueNoiseLoaded imageWidth imageHeight self).

Module Scene.

Definition shadowCamera : THREE.ShadowCamera.t :=
  {| THREE.ShadowCamera.near := 1 # 10; THREE.ShadowCamera.far := 1000 |}.

(** The shadow map the renderer creates when it first renders the light's
    shadows, holding texture [id]. *)
Definition shadowMap (id : nat) : THREE.WebGLRenderTarget.t :=
  {| THREE.WebGLRenderTarget.texture := THREE.HostTexture id;
     THREE.WebGLRenderTarget.width := 4096;
     THREE.WebGLRenderTarget.height := 1024 |}.

(** A point light as [new THREE.PointLight] makes it: a shadow object, and no
    shadow map until the first shadow render. *)
Definition lightBeforeShadowRender : THREE.PointLight.t :=
  {| THREE.PointLight.position := THREE.HostVector3 0;
     THREE.PointLight.castShadow := true;
     THREE.PointLight.shadow :=
       Some {| THREE.PointLightShadow.map := None;
               THREE.PointLightShadow.camera := shadowCamera |} |}.

Definition lightWithShadowMap (id : nat) : THREE.PointLight.t :=
  {| THREE.PointLight.position := THREE.HostVector3 0;
     THREE.PointLight.castShadow := true;
     THREE.PointLight.shadow :=
       Some {| THREE.PointLightShadow.map := Some (shadowMap id);
               THREE.PointLightShadow.camera := shadowCamera |} |}.

Definition lightWithoutShadow : THREE.PointLight.t :=
  {| THREE.PointLight.position := THREE.HostVector3 0;
     THREE.PointLight.castShadow := false;
     THREE.PointLight.shadow := None |}.

(** A point light on which shadows are not enabled, which is how
    [new THREE.PointLight] makes it: [castShadow] is false, the shadow object
    is there, and the renderer never gives it a shadow map. *)
Definition lightNotCastingShadow : THREE.PointLight.t :=
  {| THREE.PointLight.position := THREE.HostVector3 0;
     THREE.PointLight.castShadow := false;
     THREE.PointLight.shadow :=
       Some {| THREE.PointLightShadow.map := None;
               THREE.PointLightShadow.camera := shadowCamera |} |}.

Definition camera : THREE.Camera.t :=
  {| THREE.Camera.position := THREE.HostVector3 1;
     THREE.Camera.projectionMatrixInverse := THREE.HostMatrix4 0;
     THREE.Camera.matrixWorld := THREE.HostMatrix4 1 |}.

Definition renderer : WebGLRenderer.t :=
  {| WebGLRenderer.renderTarget := None; WebGLRenderer.drawCalls := [] |}.

(** The composer's buffers. *)
Definition inputBuffer : THREE.WebGLRenderTarget.t :=
  {| THREE.WebGLRenderTarget.texture := THREE.HostTexture 100;
     THREE.WebGLRenderTarget.width := 800;
     THREE.WebGLRenderTarget.height := 600 |}.

Definition outputBuffer : THREE.WebGLRenderTarget.t :=
  {| THREE.WebGLRenderTarget.texture := THREE.HostTexture 101;
     THREE.WebGLRenderTarget.width := 800;
     THREE.WebGLRenderTarget.height := 600 |}.

Definition sceneDepthTexture : THREE.Texture := THREE.HostTexture 102.

(** The state a completed call leaves, or [dflt] when it threw. *)
Definition constructed (c : Completion GodraysPass.t) (dflt : GodraysPass.t)
    : GodraysPass.t :=
  match c with Normal self => self | Throw _ => dflt end.

Definition blankPass : GodraysPass.t :=
  {| GodraysPass.godraysRenderTarget :=
       {| THREE.WebGLRenderTarget.texture := THREE.GodraysTargetTexture;
          THREE.WebGLRenderTarget.width := 1;
          THREE.WebGLRenderTarget.height := 1 |};
     GodraysPass.illumPass :=
       {| GodraysIllumPass.material := GodraysMaterial.new;
          GodraysIllumPass.shadowMapSet := false;
          GodraysIllumPass.props :=
            {| GodraysPassProps.pointLight := lightBeforeShadowRender;
               GodraysPassProps.camera := camera |};
          GodraysIllumPass.lastParams := defaultParams |};
     GodraysPass.compositorPass :=
       GodraysCompositorPass.new
         {| GodraysCompositorMaterialProps.godrays := THREE.GodraysTargetTexture;
            GodraysCompositorMaterialProps.edgeStrength := 2;
            GodraysCompositorMaterialProps.edgeRadius := 1;
            GodraysCompositorMaterialProps.color := THREE.Color.white |};
     GodraysPass.renderToScreen := false |}.

(** [new GodraysPass(light, camera)] before the first shadow render. *)
Definition pass : GodraysPass.t :=
  constructed
    (GodraysPass.new lightBeforeShadowRender camera PartialParams.empty)
    blankPass.

(** One frame: [pass.render(renderer, inputBuffer, outputBuffer)]; the state
    of the pass afterwards. *)
Definition frame (self : GodraysPass.t) : GodraysPass.t :=
  snd (state_after
         (GodraysPass.render inputBuffer outputBuffer (renderer, self))).

Definition densityOnly (v : number) : PartialParams.t :=
  {| PartialParams.density := Some (numberValue v);
     PartialParams.maxDensity := None;
     PartialParams.edgeStrength := None;
     PartialParams.edgeRadius := None;
     PartialParams.distanceAttenuation := None;
     PartialParams.color := None |}.

Definition densityUniform (self : GodraysPass.t) : numberOrUndefined :=
  GodraysMaterial.density
    (GodraysIllumPass.material (GodraysPass.illumPass self)).

Definition depthCubeUniform (self : GodraysPass.t) : option THREE.Texture :=
  GodraysMaterial.depthCube
    (GodraysIllumPass.material (GodraysPass.illumPass self)).

End Scene.

(** The uniforms of the illumination material that are derived from the
    camera and the light, as [updateUniforms] derives them. *)
Definition derivedFrom (p : GodraysPassProps.t) (u : GodraysMaterial.t) : Prop :=
  let light := GodraysPassProps.pointLight p in
  let camera := GodraysPassProps.camera p in
  GodraysMaterial.lightPos u = THREE.PointLight.position light /\
  GodraysMaterial.cameraPos u = THREE.Camera.position camera /\
  GodraysMaterial.projectionMatrixInv u =
    THREE.Camera.projectionMatrixInverse camera /\
  GodraysMaterial.viewMatrixInv u = THREE.Camera.matrixWorld camera /\
  GodraysMaterial.depthCube u =
    match THREE.PointLight.shadow light with
    | Some sh =>
        option_map THREE.WebGLRenderTarget.texture (THREE.PointLightShadow.map sh)
    | None => None
    end.

(** The user-facing parameters as the two uniform bundles hold them. *)
Definition paramsApplied (params : GodraysPassParams.t) (self : GodraysPass.t)
    : Prop :=
  let u := GodraysIllumPass.material (GodraysPass.illumPass self) in
  let c := GodraysCompositorPass.fullscreenMaterial
             (GodraysPass.compositorPass self) in
  GodraysMaterial.density u = GodraysPassParams.density params /\
  GodraysMaterial.maxDensity u = GodraysPassParams.maxDensity params /\
  GodraysMaterial.distanceAttenuation u =
    GodraysPassParams.distanceAttenuation params /\
  GodraysCompositorMaterial.edgeStrength c =
    GodraysPassParams.edgeStrength params /\
  GodraysCompositorMaterial.edgeRadius c = GodraysPassParams.edgeRadius params /\
  GodraysCompositorMaterial.color c = GodraysPassParams.color params.

(** The compositor draw of a frame: the stored uniforms with [sceneDiffuse]
    pointed at the input buffer's texture. *)
Definition compositorDraw (inputBuffer : THREE.WebGLRenderTarget.t)
    (outputBuffer : option THREE.WebGLRenderTarget.t)
    (cp : GodraysCompositorPass.t) : WebGLRenderer.DrawCall :=
  {| WebGLRenderer.target := outputBuffer;
     WebGLRenderer.fullscreenMaterial :=
       WebGLRenderer.Compositor
         (GodraysCompositorMaterial.set_sceneDiffuse
            (Some (THREE.WebGLRenderTarget.texture inputBuffer))
            (GodraysCompositorPass.fullscreenMaterial cp)) |}.

(** The illumination draw of a frame, into the pass's own render target. *)
Definition illuminationDraw (target : THREE.WebGLRenderTarget.t)
    (ip : GodraysIllumPass.t) : WebGLRenderer.DrawCall :=
  {| WebGLRenderer.target := Some target;
     WebGLRenderer.fullscreenMaterial :=
       WebGLRenderer.Illumination (GodraysIllumPass.material ip) |}.

(** The compositor samples the texture of the pass's own render target. *)
Definition godraysLinked (self : GodraysPass.t) : Prop :=
  GodraysCompositorMaterial.godrays
    (GodraysCompositorPass.fullscreenMaterial (GodraysPass.compositorPass self))
  = THREE.WebGLRenderTarget.texture (GodraysPass.godraysRenderTarget self).

(** ** Histories *)

(** What the host can do with a pass it holds.  A method that throws is caught
    by the host, which goes on with the objects as the throw left them. *)
Inductive HostAction : Type :=
| SetParams (partialParams : PartialParams.t)
| SetSize (width height : number)
| SetDepthTexture (depthTexture : THREE.Texture)
    (depthPacking : option THREE.DepthPackingStrategies)
| Render (inputBuffer outputBuffer : THREE.WebGLRenderTarget.t)
| HostUpdates (light : THREE.PointLight.t) (camera : THREE.Camera.t)
| SetRenderToScreen (v : bool)
| BlueNoiseLoaded (imageWidth imageHeight : number).

(** The renderer and the pass after one action. *)
Definition perform (w : WebGLRenderer.t * GodraysPass.t) (a : HostAction)
    : WebGLRenderer.t * GodraysPass.t :=
  match a with
  | SetParams partialParams =>
      (fst w, state_after (GodraysPass.setParams partialParams (snd w)))
  | SetSize width height =>
      (fst w, state_after (GodraysPass.setSize width height (snd w)))
  | SetDepthTexture depthTexture depthPacking =>
      (fst w,
       state_after (GodraysPass.setDepthTexture depthTexture depthPacking (snd w)))
  | Render inputBuffer outputBuffer =>
      state_after (GodraysPass.render inputBuffer outputBuffer w)
  | HostUpdates light camera =>
      (fst w, GodraysPass.hostUpdates light camera (snd w))
  | SetRenderToScreen v => (fst w, GodraysPass.set_renderToScreen v (snd w))
  | BlueNoiseLoaded imageWidth imageHeight =>
      (fst w, GodraysPass.blueNoiseLoaded imageWidth imageHeight (snd w))
  end.

Definition performAll (actions : list HostAction)
    (w : WebGLRenderer.t * GodraysPass.t) : WebGLRenderer.t * GodraysPass.t :=
  fold_left perform actions w.

(** Two consecutive draw calls that make one frame: the illumination material
    drawn into a render target, then the compositor material sampling that
    target's texture. *)
Definition isFrame (first second : WebGLRenderer.DrawCall) : Prop :=
  match WebGLRenderer.fullscreenMaterial first,
        WebGLRenderer.target first,
        WebGLRenderer.fullscreenMaterial second with
  | WebGLRenderer.Illumination _, Some rt, WebGLRenderer.Compositor c =>
      GodraysCompositorMaterial.godrays c = THREE.WebGLRenderTarget.texture rt
  | _, _, _ => False
  end.

(** A draw log that is a sequence of whole frames. *)
Fixpoint framesInOrder (draws : list WebGLRenderer.DrawCall) : Prop :=
  match draws with
  | [] => True
  | first :: second :: rest => isFrame first second /\ framesInOrder rest
  | _ => False
  end.

(** The three sizes the pass keeps: the [resolution] uniform of the
    illumination material is the size of the godrays render target, which is
    the rounded-up half of the [resolution] uniform of the compositor. *)
Definition sizesConsistent (self : GodraysPass.t) : Prop :=
  let rt := GodraysPass.godraysRenderTarget self in
  let illum :=
    GodraysMaterial.resolution
      (GodraysIllumPass.material (GodraysPass.illumPass self)) in
  let full :=
    GodraysCompositorMaterial.resolution
      (GodraysCompositorPass.fullscreenMaterial
         (GodraysPass.compositorPass self)) in
  illum = {| THREE.x := THREE.WebGLRenderTarget.width rt;
             THREE.y := THREE.WebGLRenderTarget.height rt |} /\
  THREE.WebGLRenderTarget.width rt
    = Math.ceil (THREE.x full * GODRAYS_RESOLUTION_SCALE) /\
  THREE.WebGLRenderTarget.height rt
    = Math.ceil (THREE.y full * GODRAYS_RESOLUTION_SCALE).

(** The parts of a pass that are fixed at construction. *)
Definition fixedParts (self : GodraysPass.t)
    : GodraysPassParams.t * THREE.Texture * THREE.Texture :=
  (GodraysIllumPass.lastParams (GodraysPass.illumPass self),
   THREE.WebGLRenderTarget.texture (GodraysPass.godraysRenderTarget self),
   GodraysCompositorMaterial.godrays
     (GodraysCompositorPass.fullscreenMaterial (GodraysPass.compositorPass self))).

(** The flags that are set once: the shadow map has been applied, the blue
    noise has arrived. *)
Definition latched (self : GodraysPass.t) : bool * bool :=
  (GodraysIllumPass.shadowMapSet (GodraysPass.illumPass self),
   match GodraysMaterial.blueNoise
           (GodraysIllumPass.material (GodraysPass.illumPass self)) with
   | Some _ => true
   | None => false
   end).

(** What a parameter holds after a call that applied a partial record.  A
    numeric key that the record lacks gives the default; a key it has gives
    the record's value, which may be [undefined]. *)
Definition numericKeyApplied (dflt : numberOrUndefined)
    (key : option numberOrUndefined) (held : numberOrUndefined) : Prop :=
  match key with
  | None => held = dflt
  | Some v => held = v
  end.

(** The colour is different: a key that is absent or [undefined] gives the
    default colour, and a colour gives an equal copy of itself. *)
Definition colorKeyApplied (dflt : THREE.Color.t)
    (key : option (orUndefined THREE.Color.t)) (held : THREE.Color.t) : Prop :=
  match key with
  | None | Some undefined => held = dflt
  | Some (defined c) => held = c
  end.

(** The partial record [{ density: undefined }]. *)
Definition densityUndefined : PartialParams.t :=
  {| PartialParams.density := Some undefined;
     PartialParams.maxDensity := None;
     PartialParams.edgeStrength := None;
     PartialParams.edgeRadius := None;
     PartialParams.distanceAttenuation := None;
     PartialParams.color := None |}.

(** The partial record [{ color: undefined }]. *)
Definition colorUndefined : PartialParams.t :=
  {| PartialParams.density := None;
     PartialParams.maxDensity := None;
     PartialParams.edgeStrength := None;
     PartialParams.edgeRadius := None;
     PartialParams.distanceAttenuation := None;
     PartialParams.color := Some undefined |}.

(** [2^-1073], the smallest positive double but one.  From here up the
    double product [width * 0.5] is positive, as the exact half is; the one
    positive double below, [2^-1074], has a half that rounds to zero. *)
Definition smallestHalvable : number := 1 # (2 ^ 1073).

(** * Properties *)

(** ** Parameter updates *)

Example scene_pass_constructed :
  GodraysPass.new Scene.lightBeforeShadowRender Scene.camera PartialParams.empty
  = Normal Scene.pass.
Proof. reflexivity. Qed.

Lemma populateParams_field_values (p : PartialParams.t) :
  let params := populateParams p in
  GodraysPassParams.density params
    = spread (GodraysPassParams.density defaultParams) (PartialParams.density p) /\
  GodraysPassParams.maxDensity params
    = spread (GodraysPassParams.maxDensity defaultParams)
             (PartialParams.maxDensity p) /\
  GodraysPassParams.distanceAttenuation params
    = spread (GodraysPassParams.distanceAttenuation defaultParams)
             (PartialParams.distanceAttenuation p) /\
  GodraysPassParams.edgeStrength params
    = spread (GodraysPassParams.edgeStrength defaultParams)
             (PartialParams.edgeStrength p) /\
  GodraysPassParams.edgeRadius params
    = spread (GodraysPassParams.edgeRadius defaultParams)
             (PartialParams.edgeRadius p) /\
  GodraysPassParams.color params
    = orElse (readKey (PartialParams.color p))
             (GodraysPassParams.color defaultParams).
Proof.
  destruct p as [d m es er da c]; cbn [populateParams]; repeat split.
  destruct c as [[|[r g b]]|]; reflexivity.
Qed.

Lemma numericKeyApplied_spread (dflt : numberOrUndefined)
    (key : option numberOrUndefined) :
  numericKeyApplied dflt key (spread dflt key).
Proof. destruct key; reflexivity. Qed.

Lemma colorKeyApplied_orElse (dflt : THREE.Color.t)
    (key : option (orUndefined THREE.Color.t)) :
  colorKeyApplied dflt key (orElse (readKey key) dflt).
Proof. destruct key as [[|c]|]; reflexivity. Qed.

(** [populateParams] never looks at the pass: two calls with the same partial
    record give the same parameters, whatever was applied before. *)
Lemma populateParams_empty : populateParams PartialParams.empty = defaultParams.
Proof. reflexivity. Qed.

(** What [setParams] does when the light has its shadow object. *)
Lemma setParams_with_shadow (partialParams : PartialParams.t)
    (self : GodraysPass.t) (sh : THREE.PointLightShadow.t) :
  THREE.PointLight.shadow (GodraysPassProps.pointLight (GodraysPass.props self))
    = Some sh ->
  GodraysPass.setParams partialParams self
  = (Normal tt,
     GodraysPass.set_compositorPass
       {| GodraysCompositorPass.fullscreenMaterial :=
            GodraysCompositorMaterial.updateUniforms
              (GodraysPassParams.edgeStrength (populateParams partialParams))
              (GodraysPassParams.edgeRadius (populateParams partialParams))
              (GodraysPassParams.color (populateParams partialParams))
              (GodraysCompositorPass.fullscreenMaterial
                 (GodraysPass.compositorPass self)) |}
       (GodraysPass.set_illumPass
          (GodraysIllumPass.set_material
             (GodraysIllumPass.assignUniforms
                (GodraysPassProps.pointLight (GodraysPass.props self))
                (GodraysPassProps.camera (GodraysPass.props self))
                sh (populateParams partialParams)
                (GodraysIllumPass.material (GodraysPass.illumPass self)))
             (GodraysPass.illumPass self))
          self)).
Proof.
  intros Hsh.
  unfold GodraysPass.setParams, bind, get, GodraysPass.onIllum,
    GodraysPass.onCompositor, zoom, GodraysIllumPass.updateUniforms.
  rewrite Hsh. reflexivity.
Qed.

(** What [setParams] does when the light has no shadow object: it throws
    before it has written anything. *)
Lemma setParams_without_shadow (partialParams : PartialParams.t)
    (self : GodraysPass.t) :
  THREE.PointLight.shadow (GodraysPassProps.pointLight (GodraysPass.props self))
    = None ->
  GodraysPass.setParams partialParams self
  = (Throw (Error "Point light must have shadow"), self).
Proof.
  intros Hsh.
  unfold GodraysPass.setParams, bind, get, GodraysPass.onIllum, zoom,
    GodraysIllumPass.updateUniforms.
  rewrite Hsh. unfold throw.
  destruct self as [rt ip cp rts]; reflexivity.
Qed.

(** C1, as the code has it.  After a [setParams] that returns, every parameter
    whose key the partial record lacks holds the library default, whatever it
    held before the call.  Every numeric parameter whose key the record has
    holds the record's value for it, [undefined] when that is what the record
    carries.  The colour holds the default when its key is absent or
    [undefined], and a copy of the given colour otherwise. *)
Theorem setParams_unspecified_take_defaults (partialParams : PartialParams.t)
    (self : GodraysPass.t) (sh : THREE.PointLightShadow.t) :
  THREE.PointLight.shadow (GodraysPassProps.pointLight (GodraysPass.props self))
    = Some sh ->
  completion (GodraysPass.setParams partialParams self) = Normal tt /\
  let self' := state_after (GodraysPass.setParams partialParams self) in
  let u := GodraysIllumPass.material (GodraysPass.illumPass self') in
  let c := GodraysCompositorPass.fullscreenMaterial
             (GodraysPass.compositorPass self') in
  numericKeyApplied (1 / 128) (PartialParams.density partialParams)
    (GodraysMaterial.density u) /\
  numericKeyApplied (1 # 2) (PartialParams.maxDensity partialParams)
    (GodraysMaterial.maxDensity u) /\
  numericKeyApplied (5 # 1000) (PartialParams.distanceAttenuation partialParams)
    (GodraysMaterial.distanceAttenuation u) /\
  numericKeyApplied 2 (PartialParams.edgeStrength partialParams)
    (GodraysCompositorMaterial.edgeStrength c) /\
  numericKeyApplied 1 (PartialParams.edgeRadius partialParams)
    (GodraysCompositorMaterial.edgeRadius c) /\
  colorKeyApplied THREE.Color.white (PartialParams.color partialParams)
    (GodraysCompositorMaterial.color c).
Proof.
  intros Hsh.
  rewrite (setParams_with_shadow partialParams self sh Hsh).
  split; [reflexivity|].
  cbn [state_after snd GodraysPass.set_compositorPass GodraysPass.set_illumPass
       GodraysPass.illumPass GodraysPass.compositorPass
       GodraysIllumPass.set_material GodraysIllumPass.material
       GodraysCompositorPass.fullscreenMaterial
       GodraysIllumPass.assignUniforms GodraysCompositorMaterial.updateUniforms
       GodraysMaterial.density GodraysMaterial.maxDensity
       GodraysMaterial.distanceAttenuation
       GodraysCompositorMaterial.edgeStrength
       GodraysCompositorMaterial.edgeRadius GodraysCompositorMaterial.color].
  destruct (populateParams_field_values partialParams)
    as (Hd & Hm & Ha & Hes & Her & Hc).
  rewrite Hd, Hm, Ha, Hes, Her, Hc.
  repeat split;
    first [apply numericKeyApplied_spread | apply colorKeyApplied_orElse].
Qed.

Lemma setParams_unspecified_take_defaults_witness :
  let prior :=
    state_after (GodraysPass.setParams (Scene.densityOnly 1) Scene.pass) in
  Scene.densityUniform
    (state_after (GodraysPass.setParams PartialParams.empty prior))
  = 1 / 128 /\
  Scene.densityUniform
    (state_after (GodraysPass.setParams densityUndefined prior))
  = undefined /\
  GodraysCompositorMaterial.color
    (GodraysCompositorPass.fullscreenMaterial
       (GodraysPass.compositorPass
          (state_after (GodraysPass.setParams colorUndefined prior))))
  = THREE.Color.white.
Proof.
  cbv zeta. split; [|split].
  - exact (proj1 (proj2
      (setParams_unspecified_take_defaults PartialParams.empty
         (state_after (GodraysPass.setParams (Scene.densityOnly 1) Scene.pass))
         {| THREE.PointLightShadow.map := None;
            THREE.PointLightShadow.camera := Scene.shadowCamera |}
         eq_refl))).
  - exact (proj1 (proj2
      (setParams_unspecified_take_defaults densityUndefined
         (state_after (GodraysPass.setParams (Scene.densityOnly 1) Scene.pass))
         {| THREE.PointLightShadow.map := None;
            THREE.PointLightShadow.camera := Scene.shadowCamera |}
         eq_refl))).
  - exact (proj2 (proj2 (proj2 (proj2 (proj2 (proj2
      (setParams_unspecified_take_defaults colorUndefined
         (state_after (GodraysPass.setParams (Scene.densityOnly 1) Scene.pass))
         {| THREE.PointLightShadow.map := None;
            THREE.PointLightShadow.camera := Scene.shadowCamera |}
         eq_refl))))))).
Defined.

(** C1, as the spec has it, fails: a pass whose density was set to [1] and
    which then receives [setParams({})] ends with the default density
    [1/128], not with the [1] it held before the call. *)
Lemma setParams_does_not_retain_prior_value :
  let before :=
    state_after (GodraysPass.setParams (Scene.densityOnly 1) Scene.pass) in
  let call := GodraysPass.setParams PartialParams.empty before in
  completion call = Normal tt /\
  PartialParams.density PartialParams.empty = None /\
  Scene.densityUniform before = 1 /\
  Scene.densityUniform (state_after call) = 1 / 128 /\
  Scene.densityUniform (state_after call) <> Scene.densityUniform before.
Proof.
  cbv zeta. repeat split. vm_compute. discriminate.
Qed.

(** ** Depth packing *)

Lemma unsupportedPacking_true (d : THREE.DepthPackingStrategies) :
  d <> THREE.BasicDepthPacking ->
  GodraysIllumPass.unsupportedPacking (Some d) = true.
Proof. destruct d; [congruence | reflexivity]. Qed.

Lemma unsupportedPacking_spec (depthPacking : option THREE.DepthPackingStrategies) :
  GodraysIllumPass.unsupportedPacking depthPacking = true <->
  exists d, depthPacking = Some d /\ d <> THREE.BasicDepthPacking.
Proof.
  split.
  - destruct depthPacking as [[|]|]; cbn; try discriminate.
    intros _. exists THREE.RGBADepthPacking. split; [reflexivity | discriminate].
  - intros (d & -> & Hd). now apply unsupportedPacking_true.
Qed.

(** The illumination pass stores the texture, then throws. *)
Lemma illum_setDepthTexture_unsupported (depthTexture : THREE.Texture)
    (d : THREE.DepthPackingStrategies) (self : GodraysIllumPass.t) :
  d <> THREE.BasicDepthPacking ->
  GodraysIllumPass.setDepthTexture depthTexture (Some d) self
  = (Throw (Error "Only BasicDepthPacking is supported"),
     GodraysIllumPass.set_material
       (GodraysMaterial.set_sceneDepth (Some depthTexture)
          (GodraysIllumPass.material self)) self).
Proof.
  intros Hd. unfold GodraysIllumPass.setDepthTexture, bind, modify.
  rewrite (unsupportedPacking_true d Hd). reflexivity.
Qed.

(** The compositor pass throws, then would have stored the texture. *)
Lemma compositor_setDepthTexture_unsupported (depthTexture : THREE.Texture)
    (d : THREE.DepthPackingStrategies) (self : GodraysCompositorPass.t) :
  d <> THREE.BasicDepthPacking ->
  GodraysCompositorPass.setDepthTexture depthTexture (Some d) self
  = (Throw (Error "Only BasicDepthPacking is supported"), self).
Proof.
  intros Hd. unfold GodraysCompositorPass.setDepthTexture, bind.
  rewrite (unsupportedPacking_true d Hd). reflexivity.
Qed.

Lemma pass_setDepthTexture_unsupported (depthTexture : THREE.Texture)
    (d : THREE.DepthPackingStrategies) (self : GodraysPass.t) :
  d <> THREE.BasicDepthPacking ->
  GodraysPass.setDepthTexture depthTexture (Some d) self
  = (Throw (Error "Only BasicDepthPacking is supported"),
     GodraysPass.set_illumPass
       (GodraysIllumPass.set_material
          (GodraysMaterial.set_sceneDepth (Some depthTexture)
             (GodraysIllumPass.material (GodraysPass.illumPass self)))
          (GodraysPass.illumPass self)) self).
Proof.
  intros Hd.
  unfold GodraysPass.setDepthTexture, bind, GodraysPass.onIllum, zoom.
  rewrite (illum_setDepthTexture_unsupported depthTexture d _ Hd).
  reflexivity.
Qed.

(** With the supported packing, or with none given, the call returns and both
    stages hold the texture. *)
Lemma pass_setDepthTexture_supported (depthTexture : THREE.Texture)
    (depthPacking : option THREE.DepthPackingStrategies) (self : GodraysPass.t) :
  GodraysIllumPass.unsupportedPacking depthPacking = false ->
  let r := GodraysPass.setDepthTexture depthTexture depthPacking self in
  completion r = Normal tt /\
  GodraysMaterial.sceneDepth
    (GodraysIllumPass.material (GodraysPass.illumPass (state_after r)))
    = Some depthTexture /\
  GodraysCompositorMaterial.sceneDepth
    (GodraysCompositorPass.fullscreenMaterial
       (GodraysPass.compositorPass (state_after r)))
    = Some depthTexture.
Proof.
  intros Hp.
  unfold GodraysPass.setDepthTexture, GodraysIllumPass.setDepthTexture,
    GodraysCompositorPass.setDepthTexture, bind, GodraysPass.onIllum,
    GodraysPass.onCompositor, zoom, modify.
  rewrite Hp. cbn. repeat split.
Qed.

(** The completions [render] can have: it returns, or it throws the
    [TypeError] of reading [.map] of an absent shadow. *)
Lemma beforeRender_cases (self : GodraysIllumPass.t) :
  let light := GodraysPassProps.pointLight (GodraysIllumPass.props self) in
  GodraysIllumPass.beforeRender self =
    if GodraysIllumPass.shadowMapSet self then (Normal tt, self)
    else
      match THREE.PointLight.shadow light with
      | None =>
          (Throw (TypeError "Cannot read properties of null (reading 'map')"),
           self)
      | Some sh =>
          match THREE.PointLightShadow.map sh with
          | None => (Normal tt, self)
          | Some _ =>
              (Normal tt,
               GodraysIllumPass.set_shadowMapSet true
                 (GodraysIllumPass.set_material
                    (GodraysIllumPass.assignUniforms
                       light
                       (GodraysPassProps.camera (GodraysIllumPass.props self))
                       sh (GodraysIllumPass.lastParams self)
                       (GodraysIllumPass.material self)) self))
          end
      end.
Proof.
  cbv zeta.
  unfold GodraysIllumPass.beforeRender, GodraysIllumPass.shadowMapReady, bind, get.
  destruct (GodraysIllumPass.shadowMapSet self) eqn:Hset; [reflexivity|].
  destruct (THREE.PointLight.shadow _) as [sh|] eqn:Hsh; [|reflexivity].
  destruct (THREE.PointLightShadow.map sh) as [m|] eqn:Hmap; [|reflexivity].
  cbn [ret when]. unfold GodraysIllumPass.updateUniforms. rewrite Hsh.
  reflexivity.
Qed.

Lemma illum_render_unfold (inputBuffer outputBuffer : THREE.WebGLRenderTarget.t)
    (r : WebGLRenderer.t) (self : GodraysIllumPass.t) :
  GodraysIllumPass.render inputBuffer outputBuffer (r, self) =
    match GodraysIllumPass.beforeRender self with
    | (Normal _, self') =>
        (Normal tt,
         ({| WebGLRenderer.renderTarget := Some outputBuffer;
             WebGLRenderer.drawCalls :=
               WebGLRenderer.drawCalls r ++
               [ {| WebGLRenderer.target := Some outputBuffer;
                    WebGLRenderer.fullscreenMaterial :=
                      WebGLRenderer.Illumination
                        (GodraysIllumPass.material self') |} ] |},
          self'))
    | (Throw e, self') => (Throw e, (r, self'))
    end.
Proof.
  unfold GodraysIllumPass.render, bind, onSelf, onRenderer, zoom.
  cbn [fst snd].
  destruct (GodraysIllumPass.beforeRender self) as [[[]|e] self']; reflexivity.
Qed.

Lemma pass_render_unfold (inputBuffer outputBuffer : THREE.WebGLRenderTarget.t)
    (r : WebGLRenderer.t) (self : GodraysPass.t) :
  GodraysPass.render inputBuffer outputBuffer (r, self) =
    match GodraysIllumPass.beforeRender (GodraysPass.illumPass self) with
    | (Normal _, ip') =>
        let out :=
          if GodraysPass.renderToScreen self then None else Some outputBuffer in
        (Normal tt,
         ({| WebGLRenderer.renderTarget := out;
             WebGLRenderer.drawCalls :=
               (WebGLRenderer.drawCalls r ++
                [ illuminationDraw (GodraysPass.godraysRenderTarget self) ip' ])
               ++ [ compositorDraw inputBuffer out
                      (GodraysPass.compositorPass self) ] |},
          GodraysPass.set_compositorPass
            {| GodraysCompositorPass.fullscreenMaterial :=
                 GodraysCompositorMaterial.set_sceneDiffuse
                   (Some (THREE.WebGLRenderTarget.texture inputBuffer))
                   (GodraysCompositorPass.fullscreenMaterial
                      (GodraysPass.compositorPass self)) |}
            (GodraysPass.set_illumPass ip' self)))
    | (Throw e, ip') => (Throw e, (r, GodraysPass.set_illumPass ip' self))
    end.
Proof.
  unfold GodraysPass.render, bind, onSelf, GodraysPass.onPass, zoom, get.
  cbn [fst snd].
  rewrite illum_render_unfold.
  destruct (GodraysIllumPass.beforeRender (GodraysPass.illumPass self))
    as [[[]|e] ip']; reflexivity.
Qed.

(** [render] throws nothing but the [TypeError]. *)
Lemma render_throws_only_TypeError
    (inputBuffer outputBuffer : THREE.WebGLRenderTarget.t)
    (r : WebGLRenderer.t) (self : GodraysPass.t) (e : JsError) :
  completion (GodraysPass.render inputBuffer outputBuffer (r, self)) = Throw e ->
  e = TypeError "Cannot read properties of null (reading 'map')".
Proof.
  rewrite pass_render_unfold, beforeRender_cases. cbv zeta.
  destruct (GodraysIllumPass.shadowMapSet _); [discriminate|].
  destruct (THREE.PointLight.shadow _) as [sh|].
  - destruct (THREE.PointLightShadow.map sh); discriminate.
  - cbn. congruence.
Qed.

(** C2.  A depth packing other than [BasicDepthPacking] makes
    [setDepthTexture] throw during the call itself, on the illumination pass,
    on the compositor pass and on [GodraysPass]; and [render] never throws
    that error. *)
Theorem setDepthTexture_rejects_unsupported_packing
    (depthTexture : THREE.Texture) (d : THREE.DepthPackingStrategies) :
  d <> THREE.BasicDepthPacking ->
  (forall self : GodraysIllumPass.t,
     completion (GodraysIllumPass.setDepthTexture depthTexture (Some d) self)
     = Throw (Error "Only BasicDepthPacking is supported")) /\
  (forall self : GodraysCompositorPass.t,
     completion (GodraysCompositorPass.setDepthTexture depthTexture (Some d) self)
     = Throw (Error "Only BasicDepthPacking is supported")) /\
  (forall self : GodraysPass.t,
     completion (GodraysPass.setDepthTexture depthTexture (Some d) self)
     = Throw (Error "Only BasicDepthPacking is supported")) /\
  (forall inputBuffer outputBuffer r (self : GodraysPass.t),
     completion (GodraysPass.render inputBuffer outputBuffer (r, self))
     <> Throw (Error "Only BasicDepthPacking is supported")).
Proof.
  intros Hd. repeat split; intros.
  - now rewrite illum_setDepthTexture_unsupported.
  - now rewrite compositor_setDepthTexture_unsupported.
  - now rewrite pass_setDepthTexture_unsupported.
  - intros H. apply render_throws_only_TypeError in H. discriminate.
Qed.

Lemma setDepthTexture_rejects_unsupported_packing_witness :
  completion
    (GodraysPass.setDepthTexture Scene.sceneDepthTexture
       (Some THREE.RGBADepthPacking) Scene.pass)
  = Throw (Error "Only BasicDepthPacking is supported").
Proof.
  refine (proj1 (proj2 (proj2
    (setDepthTexture_rejects_unsupported_packing Scene.sceneDepthTexture
       THREE.RGBADepthPacking _))) Scene.pass).
  discriminate.
Defined.

(** C10.  When [GodraysPass.setDepthTexture] throws on an unsupported
    packing, the illumination material already holds the new texture as its
    [sceneDepth], and the compositor pass is exactly as it was: its check
    comes before its assignment, and it is not reached anyway. *)
Theorem setDepthTexture_throw_is_not_atomic (depthTexture : THREE.Texture)
    (d : THREE.DepthPackingStrategies) (self : GodraysPass.t) :
  d <> THREE.BasicDepthPacking ->
  let r := GodraysPass.setDepthTexture depthTexture (Some d) self in
  completion r = Throw (Error "Only BasicDepthPacking is supported") /\
  GodraysMaterial.sceneDepth
    (GodraysIllumPass.material (GodraysPass.illumPass (state_after r)))
    = Some depthTexture /\
  GodraysPass.compositorPass (state_after r) = GodraysPass.compositorPass self /\
  (forall cp : GodraysCompositorPass.t,
     state_after (GodraysCompositorPass.setDepthTexture depthTexture (Some d) cp)
     = cp).
Proof.
  intros Hd. cbv zeta.
  rewrite pass_setDepthTexture_unsupported by assumption.
  repeat split.
  intros cp. now rewrite compositor_setDepthTexture_unsupported.
Qed.

Lemma setDepthTexture_throw_is_not_atomic_witness :
  let r := GodraysPass.setDepthTexture Scene.sceneDepthTexture
             (Some THREE.RGBADepthPacking) Scene.pass in
  GodraysMaterial.sceneDepth
    (GodraysIllumPass.material (GodraysPass.illumPass (state_after r)))
    = Some Scene.sceneDepthTexture /\
  GodraysCompositorMaterial.sceneDepth
    (GodraysCompositorPass.fullscreenMaterial
       (GodraysPass.compositorPass (state_after r)))
    = None.
Proof.
  cbv zeta.
  destruct (setDepthTexture_throw_is_not_atomic Scene.sceneDepthTexture
              THREE.RGBADepthPacking Scene.pass ltac:(discriminate))
    as (_ & Hillum & Hcomp & _).
  split; [exact Hillum | rewrite Hcomp; reflexivity].
Defined.

(** ** A light without a shadow object *)

Lemma illum_updateUniforms_without_shadow (p : GodraysPassProps.t)
    (params : GodraysPassParams.t) (self : GodraysIllumPass.t) :
  THREE.PointLight.shadow (GodraysPassProps.pointLight p) = None ->
  GodraysIllumPass.updateUniforms p params self
  = (Throw (Error "Point light must have shadow"), self).
Proof.
  intros Hsh. unfold GodraysIllumPass.updateUniforms. rewrite Hsh. reflexivity.
Qed.

Lemma illum_new_without_shadow (p : GodraysPassProps.t)
    (params : GodraysPassParams.t) :
  THREE.PointLight.shadow (GodraysPassProps.pointLight p) = None ->
  GodraysIllumPass.new p params = Throw (Error "Point light must have shadow").
Proof.
  intros Hsh. unfold GodraysIllumPass.new.
  rewrite illum_updateUniforms_without_shadow by assumption. reflexivity.
Qed.

(** The constructor returns exactly when the light has its shadow object. *)
Lemma pass_new_with_shadow (light : THREE.PointLight.t)
    (camera : THREE.Camera.t) (partialParams : PartialParams.t)
    (sh : THREE.PointLightShadow.t) :
  THREE.PointLight.shadow light = Some sh ->
  exists self, GodraysPass.new light camera partialParams = Normal self.
Proof.
  intros Hsh.
  unfold GodraysPass.new, GodraysIllumPass.new, GodraysIllumPass.updateUniforms.
  cbn [GodraysPassProps.pointLight GodraysPassProps.camera].
  rewrite Hsh. cbn [modify].
  rewrite (setParams_with_shadow _ _ sh) by exact Hsh.
  eexists. reflexivity.
Qed.

Lemma populateParams_ofParams (params : GodraysPassParams.t) :
  populateParams (PartialParams.ofParams params) = params.
Proof. destruct params as [d m es er da [r g b]]. reflexivity. Qed.

(** The pass the constructor returns, written out. *)
Lemma new_with_shadow_state (light : THREE.PointLight.t)
    (camera : THREE.Camera.t) (partialParams : PartialParams.t)
    (sh : THREE.PointLightShadow.t) :
  THREE.PointLight.shadow light = Some sh ->
  let params := populateParams partialParams in
  GodraysPass.new light camera partialParams
  = Normal
      {| GodraysPass.godraysRenderTarget :=
           {| THREE.WebGLRenderTarget.texture := THREE.GodraysTargetTexture;
              THREE.WebGLRenderTarget.width := 1;
              THREE.WebGLRenderTarget.height := 1 |};
         GodraysPass.illumPass :=
           {| GodraysIllumPass.material :=
                GodraysIllumPass.assignUniforms light camera sh params
                  (GodraysIllumPass.assignUniforms light camera sh params
                     GodraysMaterial.new);
              GodraysIllumPass.shadowMapSet := false;
              GodraysIllumPass.props :=
                {| GodraysPassProps.pointLight := light;
                   GodraysPassProps.camera := camera |};
              GodraysIllumPass.lastParams := params |};
         GodraysPass.compositorPass :=
           {| GodraysCompositorPass.fullscreenMaterial :=
                {| GodraysCompositorMaterial.godrays := THREE.GodraysTargetTexture;
                   GodraysCompositorMaterial.sceneDiffuse := None;
                   GodraysCompositorMaterial.sceneDepth := None;
                   GodraysCompositorMaterial.edgeStrength :=
                     GodraysPassParams.edgeStrength params;
                   GodraysCompositorMaterial.edgeRadius :=
                     GodraysPassParams.edgeRadius params;
                   GodraysCompositorMaterial.color :=
                     GodraysPassParams.color params;
                   GodraysCompositorMaterial.resolution :=
                     {| THREE.x := 1; THREE.y := 1 |} |} |};
         GodraysPass.renderToScreen := false |}.
Proof.
  intros Hsh. cbv zeta.
  unfold GodraysPass.new, GodraysIllumPass.new, GodraysIllumPass.updateUniforms.
  cbn [GodraysPassProps.pointLight GodraysPassProps.camera].
  rewrite Hsh. cbn [modify].
  rewrite (setParams_with_shadow _ _ sh) by exact Hsh.
  rewrite populateParams_ofParams.
  reflexivity.
Qed.

(** [render] returns whenever the light has its shadow object. *)
Lemma render_returns_with_shadow
    (inputBuffer outputBuffer : THREE.WebGLRenderTarget.t)
    (r : WebGLRenderer.t) (self : GodraysPass.t)
    (sh : THREE.PointLightShadow.t) :
  THREE.PointLight.shadow
    (GodraysPassProps.pointLight (GodraysPass.props self)) = Some sh ->
  completion (GodraysPass.render inputBuffer outputBuffer (r, self)) = Normal tt.
Proof.
  unfold GodraysPass.props. intros Hsh.
  rewrite pass_render_unfold, beforeRender_cases. cbv zeta. rewrite Hsh.
  destruct (GodraysIllumPass.shadowMapSet _); [reflexivity|].
  destruct (THREE.PointLightShadow.map sh); reflexivity.
Qed.

(** [render] on a light without a shadow object: the flag decides. *)
Lemma render_without_shadow
    (inputBuffer outputBuffer : THREE.WebGLRenderTarget.t)
    (r : WebGLRenderer.t) (self : GodraysPass.t) :
  THREE.PointLight.shadow
    (GodraysPassProps.pointLight (GodraysPass.props self)) = None ->
  completion (GodraysPass.render inputBuffer outputBuffer (r, self))
  = if GodraysIllumPass.shadowMapSet (GodraysPass.illumPass self)
    then Normal tt
    else Throw (TypeError "Cannot read properties of null (reading 'map')").
Proof.
  unfold GodraysPass.props. intros Hsh.
  rewrite pass_render_unfold, beforeRender_cases. cbv zeta. rewrite Hsh.
  destruct (GodraysIllumPass.shadowMapSet _); reflexivity.
Qed.

(** C4, as the code has it.  What is checked is the light's shadow object,
    not whether shadows are enabled on the light.  When the shadow object is
    absent, constructing the effect, constructing the illumination pass,
    [updateUniforms] and [setParams] throw at that call, before any uniform
    is written, and [render] throws unless the flag [shadowMapSet] is already
    set, in which case it returns.  When the shadow object is there, whatever
    [castShadow] says and whether or not a shadow map exists, construction and
    [setParams] return, with [depthCube] null and [mapSize] 1 while there is
    no map, and [render] returns. *)
Theorem shadow_object_is_what_is_checked (light : THREE.PointLight.t)
    (camera : THREE.Camera.t) :
  let props := {| GodraysPassProps.pointLight := light;
                  GodraysPassProps.camera := camera |} in
  (THREE.PointLight.shadow light = None ->
   (forall partialParams,
      GodraysPass.new light camera partialParams
      = Throw (Error "Point light must have shadow")) /\
   (forall params,
      GodraysIllumPass.new props params
      = Throw (Error "Point light must have shadow")) /\
   (forall params (self : GodraysIllumPass.t),
      GodraysIllumPass.updateUniforms props params self
      = (Throw (Error "Point light must have shadow"), self)) /\
   (forall partialParams (self : GodraysPass.t),
      GodraysPass.props self = props ->
      GodraysPass.setParams partialParams self
      = (Throw (Error "Point light must have shadow"), self)) /\
   (forall inputBuffer outputBuffer r (self : GodraysPass.t),
      GodraysPass.props self = props ->
      completion (GodraysPass.render inputBuffer outputBuffer (r, self))
      = if GodraysIllumPass.shadowMapSet (GodraysPass.illumPass self)
        then Normal tt
        else Throw (TypeError "Cannot read properties of null (reading 'map')")))
  /\
  (forall sh,
   THREE.PointLight.shadow light = Some sh ->
   (forall partialParams,
      exists self,
        GodraysPass.new light camera partialParams = Normal self /\
        GodraysMaterial.depthCube
          (GodraysIllumPass.material (GodraysPass.illumPass self))
        = option_map THREE.WebGLRenderTarget.texture
            (THREE.PointLightShadow.map sh) /\
        GodraysMaterial.mapSize
          (GodraysIllumPass.material (GodraysPass.illumPass self))
        = nullish (option_map THREE.WebGLRenderTarget.height
                     (THREE.PointLightShadow.map sh)) 1) /\
   (forall partialParams (self : GodraysPass.t),
      GodraysPass.props self = props ->
      completion (GodraysPass.setParams partialParams self) = Normal tt) /\
   (forall inputBuffer outputBuffer r (self : GodraysPass.t),
      GodraysPass.props self = props ->
      completion (GodraysPass.render inputBuffer outputBuffer (r, self))
      = Normal tt)).
Proof.
  intros props. split.
  - intros Hsh. split; [|split; [|split; [|split]]].
    + intros partialParams. unfold GodraysPass.new. fold props.
      rewrite illum_new_without_shadow; [reflexivity | exact Hsh].
    + intros params. apply illum_new_without_shadow. exact Hsh.
    + intros params self. apply illum_updateUniforms_without_shadow. exact Hsh.
    + intros partialParams self Hprops.
      apply setParams_without_shadow. rewrite Hprops. exact Hsh.
    + intros inputBuffer outputBuffer r self Hprops.
      apply render_without_shadow. rewrite Hprops. exact Hsh.
  - intros sh Hsh. split; [|split].
    + intros partialParams. eexists. split; [|split].
      * apply (new_with_shadow_state light camera partialParams sh Hsh).
      * reflexivity.
      * reflexivity.
    + intros partialParams self Hprops.
      rewrite (setParams_with_shadow partialParams self sh); [reflexivity|].
      rewrite Hprops. exact Hsh.
    + intros inputBuffer outputBuffer r self Hprops.
      apply (render_returns_with_shadow _ _ _ _ sh).
      rewrite Hprops. exact Hsh.
Qed.

Lemma shadow_object_is_what_is_checked_witness :
  GodraysPass.new Scene.lightWithoutShadow Scene.camera PartialParams.empty
  = Throw (Error "Point light must have shadow") /\
  GodraysPass.setParams (Scene.densityOnly 1)
    (GodraysPass.hostUpdates Scene.lightWithoutShadow Scene.camera Scene.pass)
  = (Throw (Error "Point light must have shadow"),
     GodraysPass.hostUpdates Scene.lightWithoutShadow Scene.camera Scene.pass) /\
  completion
    (GodraysPass.setParams (Scene.densityOnly 1)
       (GodraysPass.hostUpdates Scene.lightNotCastingShadow Scene.camera
          Scene.pass))
  = Normal tt.
Proof.
  split; [|split].
  - exact (proj1
      (proj1 (shadow_object_is_what_is_checked Scene.lightWithoutShadow
                Scene.camera) eq_refl) PartialParams.empty).
  - exact (proj1 (proj2 (proj2 (proj2
      (proj1 (shadow_object_is_what_is_checked Scene.lightWithoutShadow
                Scene.camera) eq_refl))))
      (Scene.densityOnly 1)
      (GodraysPass.hostUpdates Scene.lightWithoutShadow Scene.camera Scene.pass)
      eq_refl).
  - exact (proj1 (proj2
      (proj2 (shadow_object_is_what_is_checked Scene.lightNotCastingShadow
                Scene.camera)
         {| THREE.PointLightShadow.map := None;
            THREE.PointLightShadow.camera := Scene.shadowCamera |} eq_refl))
      (Scene.densityOnly 1)
      (GodraysPass.hostUpdates Scene.lightNotCastingShadow Scene.camera
         Scene.pass)
      eq_refl).
Defined.

(** C4, as the spec has it, fails.  On a point light with shadows not enabled
    ([castShadow] false, no shadow map) the constructor returns, [setParams]
    returns, and a frame is drawn, both stages, with [depthCube] null.  And a
    pass that has seen the shadow map once keeps rendering after the host has
    taken the light's shadow object away. *)
Lemma light_with_shadows_not_enabled_is_accepted :
  let light := Scene.lightNotCastingShadow in
  let made := GodraysPass.new light Scene.camera PartialParams.empty in
  let self := Scene.constructed made Scene.blankPass in
  let frame :=
    GodraysPass.render Scene.inputBuffer Scene.outputBuffer
      (Scene.renderer, self) in
  let orphaned :=
    GodraysPass.hostUpdates Scene.lightWithoutShadow Scene.camera
      (Scene.frame
         (GodraysPass.hostUpdates (Scene.lightWithShadowMap 7) Scene.camera
            Scene.pass)) in
  (THREE.PointLight.castShadow light = false /\
   option_map THREE.PointLightShadow.map (THREE.PointLight.shadow light)
   = Some None) /\
  made = Normal self /\
  completion (GodraysPass.setParams (Scene.densityOnly 1) self) = Normal tt /\
  completion frame = Normal tt /\
  List.length (WebGLRenderer.drawCalls (fst (state_after frame))) = 2%nat /\
  Scene.depthCubeUniform (snd (state_after frame)) = None /\
  (THREE.PointLight.shadow
     (GodraysPassProps.pointLight (GodraysPass.props orphaned)) = None /\
   completion
     (GodraysPass.render Scene.inputBuffer Scene.outputBuffer
        (Scene.renderer, orphaned)) = Normal tt).
Proof.
  cbv zeta. repeat split.
Qed.

(** ** The shadow map and the per-frame uniforms *)

(** A frame on which the illumination pass has nothing to apply: the flag is
    already set, or the shadow map is not there.  [render] returns and the
    illumination pass, uniforms included, is what it was. *)
Lemma render_keeps_illumPass
    (inputBuffer outputBuffer : THREE.WebGLRenderTarget.t)
    (r : WebGLRenderer.t) (self : GodraysPass.t) :
  let ip := GodraysPass.illumPass self in
  GodraysIllumPass.shadowMapSet ip = true \/
  (exists sh,
     THREE.PointLight.shadow
       (GodraysPassProps.pointLight (GodraysIllumPass.props ip)) = Some sh /\
     THREE.PointLightShadow.map sh = None) ->
  let res := GodraysPass.render inputBuffer outputBuffer (r, self) in
  completion res = Normal tt /\
  GodraysPass.illumPass (snd (state_after res)) = ip.
Proof.
  cbv zeta. intros H.
  rewrite pass_render_unfold, beforeRender_cases. cbv zeta.
  destruct (GodraysIllumPass.shadowMapSet (GodraysPass.illumPass self)).
  - split; reflexivity.
  - destruct H as [H | (sh & Hsh & Hmap)]; [discriminate|].
    rewrite Hsh, Hmap. split; reflexivity.
Qed.

(** The frame on which the shadow map is first seen: [updateUniforms] runs on
    the current [props] and on [lastParams], and the flag is set. *)
Lemma render_first_shadow_frame
    (inputBuffer outputBuffer : THREE.WebGLRenderTarget.t)
    (r : WebGLRenderer.t) (self : GodraysPass.t)
    (sh : THREE.PointLightShadow.t) (m : THREE.WebGLRenderTarget.t) :
  let ip := GodraysPass.illumPass self in
  GodraysIllumPass.shadowMapSet ip = false ->
  THREE.PointLight.shadow
    (GodraysPassProps.pointLight (GodraysIllumPass.props ip)) = Some sh ->
  THREE.PointLightShadow.map sh = Some m ->
  let res := GodraysPass.render inputBuffer outputBuffer (r, self) in
  completion res = Normal tt /\
  GodraysPass.illumPass (snd (state_after res))
  = GodraysIllumPass.set_shadowMapSet true
      (GodraysIllumPass.set_material
         (GodraysIllumPass.assignUniforms
            (GodraysPassProps.pointLight (GodraysIllumPass.props ip))
            (GodraysPassProps.camera (GodraysIllumPass.props ip))
            sh (GodraysIllumPass.lastParams ip)
            (GodraysIllumPass.material ip)) ip).
Proof.
  cbv zeta. intros Hset Hsh Hmap.
  rewrite pass_render_unfold, beforeRender_cases. cbv zeta.
  rewrite Hset, Hsh, Hmap. split; reflexivity.
Qed.

Lemma assignUniforms_derived (p : GodraysPassProps.t)
    (sh : THREE.PointLightShadow.t) (params : GodraysPassParams.t)
    (u : GodraysMaterial.t) :
  THREE.PointLight.shadow (GodraysPassProps.pointLight p) = Some sh ->
  derivedFrom p
    (GodraysIllumPass.assignUniforms (GodraysPassProps.pointLight p)
       (GodraysPassProps.camera p) sh params u).
Proof.
  intros Hsh. unfold derivedFrom. cbv zeta. rewrite Hsh.
  repeat split.
Qed.

(** No method assigns [lastParams] after the constructor of the illumination
    pass has. *)
Lemma setParams_keeps_lastParams (partialParams : PartialParams.t)
    (self : GodraysPass.t) :
  GodraysIllumPass.lastParams
    (GodraysPass.illumPass
       (state_after (GodraysPass.setParams partialParams self)))
  = GodraysIllumPass.lastParams (GodraysPass.illumPass self).
Proof.
  destruct (THREE.PointLight.shadow
              (GodraysPassProps.pointLight (GodraysPass.props self)))
    as [sh|] eqn:Hsh.
  - rewrite (setParams_with_shadow _ _ sh Hsh). reflexivity.
  - rewrite (setParams_without_shadow _ _ Hsh). reflexivity.
Qed.

(** C3, first half, which the code has: while the shadow map is not there,
    [render] returns and leaves the illumination uniforms as they were. *)
Lemma render_without_shadow_map_keeps_uniforms
    (inputBuffer outputBuffer : THREE.WebGLRenderTarget.t)
    (r : WebGLRenderer.t) (self : GodraysPass.t)
    (sh : THREE.PointLightShadow.t) :
  THREE.PointLight.shadow
    (GodraysPassProps.pointLight (GodraysPass.props self)) = Some sh ->
  THREE.PointLightShadow.map sh = None ->
  let res := GodraysPass.render inputBuffer outputBuffer (r, self) in
  completion res = Normal tt /\
  GodraysIllumPass.material (GodraysPass.illumPass (snd (state_after res)))
  = GodraysIllumPass.material (GodraysPass.illumPass self).
Proof.
  intros Hsh Hmap.
  destruct (render_keeps_illumPass inputBuffer outputBuffer r self) as [Hc Hip].
  - right. exists sh. split; assumption.
  - cbv zeta. split; [exact Hc | now rewrite Hip].
Qed.

(** C3, second half, where the code goes wrong.  The pass is constructed with
    the default parameters before the first shadow render; the host then calls
    [setParams({density: 1})]; a frame is rendered while the shadow map is
    still missing; the shadow map appears; the next frame is rendered.  That
    frame does update the uniforms, and takes the shadow map from the current
    light, but it applies [lastParams], which still holds the parameters of
    the constructor: the density the host set is replaced by [1/128]. *)
Theorem first_shadow_frame_reverts_to_constructor_params :
  let configured :=
    state_after (GodraysPass.setParams (Scene.densityOnly 1) Scene.pass) in
  let waiting := Scene.frame configured in
  let shadowed :=
    GodraysPass.hostUpdates (Scene.lightWithShadowMap 7) Scene.camera waiting in
  let res :=
    GodraysPass.render Scene.inputBuffer Scene.outputBuffer
      (Scene.renderer, shadowed) in
  Scene.densityUniform configured = 1 /\
  Scene.densityUniform waiting = 1 /\
  Scene.depthCubeUniform waiting = None /\
  completion res = Normal tt /\
  Scene.depthCubeUniform (snd (state_after res)) = Some (THREE.HostTexture 7) /\
  Scene.densityUniform (snd (state_after res)) = 1 / 128 /\
  ~ paramsApplied (populateParams (Scene.densityOnly 1)) (snd (state_after res)).
Proof.
  cbv zeta. repeat split.
  intros (Hd & _). vm_compute in Hd. discriminate.
Qed.

(** C7, as the spec has it, fails.  The pass is constructed when the shadow
    map (texture 1) exists and renders a frame; the host then replaces the
    light's shadow map (texture 2), as it does when the map is resized, and
    the next frame is rendered.  The [depthCube] uniform still holds
    texture 1. *)
Lemma render_does_not_refresh_shadow_map_handle :
  let started :=
    Scene.frame
      (Scene.constructed
         (GodraysPass.new (Scene.lightWithShadowMap 1) Scene.camera
            PartialParams.empty)
         Scene.blankPass) in
  let changed :=
    GodraysPass.hostUpdates (Scene.lightWithShadowMap 2) Scene.camera started in
  let res :=
    GodraysPass.render Scene.inputBuffer Scene.outputBuffer
      (Scene.renderer, changed) in
  GodraysPass.new (Scene.lightWithShadowMap 1) Scene.camera PartialParams.empty
    <> Throw (Error "Point light must have shadow") /\
  completion res = Normal tt /\
  Scene.depthCubeUniform (snd (state_after res)) = Some (THREE.HostTexture 1) /\
  ~ derivedFrom (GodraysPass.props (snd (state_after res)))
      (GodraysIllumPass.material
         (GodraysPass.illumPass (snd (state_after res)))).
Proof.
  cbv zeta. repeat split.
  - discriminate.
  - intros (_ & _ & _ & _ & H). vm_compute in H. discriminate.
Qed.

(** C7, as the code has it.  [render] writes the camera- and light-derived
    uniforms on one kind of frame only: the flag [shadowMapSet] is unset and
    the shadow map is there.  It then derives them from the current light and
    camera and sets the flag.  On a frame with the flag set, or with the
    shadow map missing, the illumination pass is left untouched.  Apart from
    that frame, the derived uniforms are written by a [setParams] that returns,
    together with the user-facing parameters. *)
Theorem render_refreshes_once (inputBuffer outputBuffer : THREE.WebGLRenderTarget.t)
    (r : WebGLRenderer.t) (self : GodraysPass.t) (sh : THREE.PointLightShadow.t) :
  THREE.PointLight.shadow
    (GodraysPassProps.pointLight (GodraysPass.props self)) = Some sh ->
  let ip := GodraysPass.illumPass self in
  let res := GodraysPass.render inputBuffer outputBuffer (r, self) in
  let ip' := GodraysPass.illumPass (snd (state_after res)) in
  completion res = Normal tt /\
  (GodraysIllumPass.shadowMapSet ip = true \/
   THREE.PointLightShadow.map sh = None -> ip' = ip) /\
  (GodraysIllumPass.shadowMapSet ip = false ->
   THREE.PointLightShadow.map sh <> None ->
   derivedFrom (GodraysPass.props self) (GodraysIllumPass.material ip') /\
   GodraysIllumPass.shadowMapSet ip' = true) /\
  (forall partialParams,
     derivedFrom (GodraysPass.props self)
       (GodraysIllumPass.material
          (GodraysPass.illumPass
             (state_after (GodraysPass.setParams partialParams self))))).
Proof.
  intros Hsh. cbv zeta. split; [|split; [|split]].
  - destruct (GodraysIllumPass.shadowMapSet (GodraysPass.illumPass self)) eqn:Hset.
    + apply render_keeps_illumPass. now left.
    + destruct (THREE.PointLightShadow.map sh) as [m|] eqn:Hmap.
      * now apply (render_first_shadow_frame _ _ _ _ sh m).
      * apply render_keeps_illumPass. right. exists sh. now split.
  - intros H. apply render_keeps_illumPass.
    destruct H as [H | H]; [now left | right; exists sh; now split].
  - intros Hset Hmap.
    destruct (THREE.PointLightShadow.map sh) as [m|] eqn:Hm; [|congruence].
    destruct (render_first_shadow_frame inputBuffer outputBuffer r self sh m
                Hset Hsh Hm) as [_ Hip].
    rewrite Hip. split; [|reflexivity].
    apply assignUniforms_derived. exact Hsh.
  - intros partialParams.
    rewrite (setParams_with_shadow _ _ sh Hsh).
    apply assignUniforms_derived. exact Hsh.
Qed.

Lemma render_refreshes_once_witness :
  let self :=
    GodraysPass.hostUpdates (Scene.lightWithShadowMap 7) Scene.camera
      Scene.pass in
  let res :=
    GodraysPass.render Scene.inputBuffer Scene.outputBuffer
      (Scene.renderer, self) in
  completion res = Normal tt /\
  GodraysIllumPass.shadowMapSet (GodraysPass.illumPass (snd (state_after res)))
  = true.
Proof.
  cbv zeta.
  destruct (render_refreshes_once Scene.inputBuffer Scene.outputBuffer
              Scene.renderer
              (GodraysPass.hostUpdates (Scene.lightWithShadowMap 7)
                 Scene.camera Scene.pass)
              {| THREE.PointLightShadow.map := Some (Scene.shadowMap 7);
                 THREE.PointLightShadow.camera := Scene.shadowCamera |}
              eq_refl) as (Hc & _ & Hfirst & _).
  split; [exact Hc|].
  apply Hfirst; [reflexivity | discriminate].
Defined.

(** ** The order of the two stages *)

Lemma setParams_keeps_link (partialParams : PartialParams.t)
    (self : GodraysPass.t) :
  godraysLinked self ->
  godraysLinked (state_after (GodraysPass.setParams partialParams self)).
Proof.
  intros H.
  destruct (THREE.PointLight.shadow
              (GodraysPassProps.pointLight (GodraysPass.props self)))
    as [sh|] eqn:Hsh.
  - rewrite (setParams_with_shadow _ _ sh Hsh). exact H.
  - rewrite (setParams_without_shadow _ _ Hsh). exact H.
Qed.

Lemma new_links (light : THREE.PointLight.t) (camera : THREE.Camera.t)
    (partialParams : PartialParams.t) (self : GodraysPass.t) :
  GodraysPass.new light camera partialParams = Normal self ->
  godraysLinked self.
Proof.
  unfold GodraysPass.new.
  destruct (GodraysIllumPass.new _ _) as [ip|e]; [|discriminate].
  match goal with
  | |- context [GodraysPass.setParams ?p ?s] =>
      pose proof (setParams_keeps_link p s) as Hkeep;
      destruct (GodraysPass.setParams p s) as [[[]|e] self']
  end; [|discriminate].
  intros [= <-]. apply Hkeep. reflexivity.
Qed.

Lemma setSize_keeps_link (width height : number) (self : GodraysPass.t) :
  godraysLinked self ->
  godraysLinked (state_after (GodraysPass.setSize width height self)).
Proof. intros H. exact H. Qed.

Lemma setDepthTexture_keeps_link (depthTexture : THREE.Texture)
    (depthPacking : option THREE.DepthPackingStrategies) (self : GodraysPass.t) :
  godraysLinked self ->
  godraysLinked
    (state_after (GodraysPass.setDepthTexture depthTexture depthPacking self)).
Proof.
  intros H.
  unfold GodraysPass.setDepthTexture, GodraysIllumPass.setDepthTexture,
    GodraysCompositorPass.setDepthTexture, bind, GodraysPass.onIllum,
    GodraysPass.onCompositor, zoom, modify.
  destruct (GodraysIllumPass.unsupportedPacking depthPacking); exact H.
Qed.

Lemma render_keeps_link (inputBuffer outputBuffer : THREE.WebGLRenderTarget.t)
    (r : WebGLRenderer.t) (self : GodraysPass.t) :
  godraysLinked self ->
  godraysLinked
    (snd (state_after (GodraysPass.render inputBuffer outputBuffer (r, self)))).
Proof.
  intros H. rewrite pass_render_unfold.
  destruct (GodraysIllumPass.beforeRender (GodraysPass.illumPass self))
    as [[[]|e] ip']; exact H.
Qed.

Lemma reachable_linked (self : GodraysPass.t) :
  reachable self -> godraysLinked self.
Proof.
  induction 1 as [light camera pp self Hnew | | | | | | |].
  - exact (new_links _ _ _ _ Hnew).
  - now apply setParams_keeps_link.
  - now apply setSize_keeps_link.
  - now apply setDepthTexture_keeps_link.
  - now apply render_keeps_link.
  - assumption.
  - assumption.
  - assumption.
Qed.

(** C8.  One call of [GodraysPass.render] on a pass the host can have either
    submits exactly two draw calls, in this order: the illumination material
    into the pass's own render target, then the compositor material into the
    output (the screen when [renderToScreen] is set), the compositor sampling
    the texture of that same render target as [godrays] and the input buffer's
    texture as [sceneDiffuse]; or, when the light has no shadow object and the
    flag is unset, it throws before anything is drawn. *)
Theorem render_runs_illumination_then_compositor
    (inputBuffer outputBuffer : THREE.WebGLRenderTarget.t)
    (r : WebGLRenderer.t) (self : GodraysPass.t) :
  reachable self ->
  let res := GodraysPass.render inputBuffer outputBuffer (r, self) in
  let r' := fst (state_after res) in
  let self' := snd (state_after res) in
  let comp := GodraysCompositorPass.fullscreenMaterial
                (GodraysPass.compositorPass self') in
  (completion res = Normal tt /\
   WebGLRenderer.drawCalls r' =
     WebGLRenderer.drawCalls r ++
     [ {| WebGLRenderer.target := Some (GodraysPass.godraysRenderTarget self);
          WebGLRenderer.fullscreenMaterial :=
            WebGLRenderer.Illumination
              (GodraysIllumPass.material (GodraysPass.illumPass self')) |};
       {| WebGLRenderer.target :=
            if GodraysPass.renderToScreen self then None else Some outputBuffer;
          WebGLRenderer.fullscreenMaterial := WebGLRenderer.Compositor comp |} ] /\
   GodraysCompositorMaterial.godrays comp
     = THREE.WebGLRenderTarget.texture (GodraysPass.godraysRenderTarget self) /\
   GodraysCompositorMaterial.sceneDiffuse comp
     = Some (THREE.WebGLRenderTarget.texture inputBuffer))
  \/
  (completion res
     = Throw (TypeError "Cannot read properties of null (reading 'map')") /\
   WebGLRenderer.drawCalls r' = WebGLRenderer.drawCalls r /\
   THREE.PointLight.shadow
     (GodraysPassProps.pointLight (GodraysPass.props self)) = None /\
   GodraysIllumPass.shadowMapSet (GodraysPass.illumPass self) = false).
Proof.
  intros Hreach. apply reachable_linked in Hreach. cbv zeta.
  rewrite pass_render_unfold.
  pose proof (beforeRender_cases (GodraysPass.illumPass self)) as Hcases.
  cbv zeta in Hcases.
  destruct (GodraysIllumPass.beforeRender (GodraysPass.illumPass self))
    as [[[]|e] ip'].
  - left. cbn [completion state_after fst snd]. split; [reflexivity|].
    split; [|split].
    + cbn [WebGLRenderer.drawCalls]. rewrite <- app_assoc. reflexivity.
    + exact Hreach.
    + reflexivity.
  - right. cbn [completion state_after fst snd].
    unfold GodraysPass.props.
    destruct (GodraysIllumPass.shadowMapSet (GodraysPass.illumPass self));
      [discriminate|].
    destruct (THREE.PointLight.shadow _) as [sh|].
    + destruct (THREE.PointLightShadow.map sh); discriminate.
    + injection Hcases as <- _. repeat split.
Qed.

Lemma render_runs_illumination_then_compositor_witness :
  List.map WebGLRenderer.target
    (WebGLRenderer.drawCalls
       (fst (state_after
               (GodraysPass.render Scene.inputBuffer Scene.outputBuffer
                  (Scene.renderer, Scene.pass)))))
  = [ Some (GodraysPass.godraysRenderTarget Scene.pass);
      Some Scene.outputBuffer ].
Proof.
  destruct (render_runs_illumination_then_compositor Scene.inputBuffer
              Scene.outputBuffer Scene.renderer Scene.pass
              (reach_new _ _ _ _ scene_pass_constructed))
    as [(_ & Hdraws & _) | (Hthrow & _)].
  - rewrite Hdraws. reflexivity.
  - discriminate Hthrow.
Defined.

(** ** Resizing *)

Lemma ceil_bounds (v : number) : v <= Math.ceil v /\ Math.ceil v < v + 1.
Proof.
  unfold Math.ceil. split.
  - apply Qle_ceiling.
  - pose proof (Qceiling_lt v) as H.
    assert (E : inject_Z (Qceiling v) == inject_Z (Qceiling v - 1) + inject_Z 1).
    { rewrite <- inject_Z_plus.
      replace (Qceiling v - 1 + 1)%Z with (Qceiling v) by lia. reflexivity. }
    rewrite E. apply Qplus_lt_l. exact H.
Qed.


Lemma setSize_unfold (width height : number) (self : GodraysPass.t) :
  GodraysPass.setSize width height self =
  (Normal tt,
   {| GodraysPass.godraysRenderTarget :=
        THREE.WebGLRenderTarget.setSize
          (Math.ceil (width * GODRAYS_RESOLUTION_SCALE))
          (Math.ceil (height * GODRAYS_RESOLUTION_SCALE))
          (GodraysPass.godraysRenderTarget self);
      GodraysPass.illumPass :=
        GodraysIllumPass.set_material
          (GodraysMaterial.set_resolution
             {| THREE.x := Math.ceil (width * GODRAYS_RESOLUTION_SCALE);
                THREE.y := Math.ceil (height * GODRAYS_RESOLUTION_SCALE) |}
             (GodraysIllumPass.material (GodraysPass.illumPass self)))
          (GodraysPass.illumPass self);
      GodraysPass.compositorPass :=
        {| GodraysCompositorPass.fullscreenMaterial :=
             GodraysCompositorMaterial.setSize width height
               (GodraysCompositorPass.fullscreenMaterial
                  (GodraysPass.compositorPass self)) |};
      GodraysPass.renderToScreen := GodraysPass.renderToScreen self |}).
Proof. reflexivity. Qed.



(** C9.  Calling [setSize] a second time with the same arguments gives the
    same completion and leaves the whole pass (render target, both uniform
    bundles, everything else) exactly as the first call left it. *)
Theorem setSize_idempotent (width height : number) (self : GodraysPass.t) :
  GodraysPass.setSize width height
    (state_after (GodraysPass.setSize width height self))
  = GodraysPass.setSize width height self.
Proof.
  rewrite !setSize_unfold. reflexivity.
Qed.

(** * Further properties of the module *)

(** ** Populating and constructing *)

(** A complete parameter record goes through [populateParams] unchanged (the
    colour as an equal copy), so populating twice is populating once: the
    constructor, which populates its argument and hands the result to
    [setParams], applies what a single population gives. *)
Theorem populateParams_complete_record (params : GodraysPassParams.t)
    (partialParams : PartialParams.t) :
  populateParams (PartialParams.ofParams params) = params /\
  populateParams (PartialParams.ofParams (populateParams partialParams))
  = populateParams partialParams.
Proof.
  assert (H : forall q, populateParams (PartialParams.ofParams q) = q).
  { intros [d m es er da [r g b]]. reflexivity. }
  split; apply H.
Qed.



(** ** How parameter updates compose *)

(** Of two consecutive [setParams] calls only the second counts: it completes
    as it would have alone and leaves the pass as it would have alone.  In
    particular a repeated call changes nothing. *)
Theorem setParams_last_call_wins (first second : PartialParams.t)
    (self : GodraysPass.t) :
  GodraysPass.setParams second
    (state_after (GodraysPass.setParams first self))
  = GodraysPass.setParams second self.
Proof.
  destruct (THREE.PointLight.shadow
              (GodraysPassProps.pointLight (GodraysPass.props self)))
    as [sh|] eqn:Hsh.
  - rewrite (setParams_with_shadow first self sh Hsh).
    rewrite (setParams_with_shadow second self sh Hsh).
    cbn [state_after snd].
    rewrite (setParams_with_shadow second _ sh) by exact Hsh.
    reflexivity.
  - rewrite (setParams_without_shadow first self Hsh).
    reflexivity.
Qed.

(** ** The depth texture *)

(** [GodraysPass.setDepthTexture] returns exactly when no packing is given or
    the packing is [BasicDepthPacking]; it then changes the two [sceneDepth]
    uniforms, both to the given texture, and nothing else. *)
Theorem setDepthTexture_accepts_basic_or_none (depthTexture : THREE.Texture)
    (depthPacking : option THREE.DepthPackingStrategies) (self : GodraysPass.t) :
  let res := GodraysPass.setDepthTexture depthTexture depthPacking self in
  (completion res = Normal tt <->
   depthPacking = None \/ depthPacking = Some THREE.BasicDepthPacking) /\
  (completion res = Normal tt ->
   state_after res
   = GodraysPass.set_compositorPass
       {| GodraysCompositorPass.fullscreenMaterial :=
            GodraysCompositorMaterial.set_sceneDepth (Some depthTexture)
              (GodraysCompositorPass.fullscreenMaterial
                 (GodraysPass.compositorPass self)) |}
       (GodraysPass.set_illumPass
          (GodraysIllumPass.set_material
             (GodraysMaterial.set_sceneDepth (Some depthTexture)
                (GodraysIllumPass.material (GodraysPass.illumPass self)))
             (GodraysPass.illumPass self)) self)).
Proof.
  cbv zeta.
  destruct depthPacking as [[|]|].
  - split; [split; [intros _; now right | reflexivity] | reflexivity].
  - rewrite pass_setDepthTexture_unsupported by discriminate.
    split; [split|]; cbn [completion fst].
    + discriminate.
    + intros [H|H]; discriminate.
    + discriminate.
  - split; [split; [intros _; now left | reflexivity] | reflexivity].
Qed.

Lemma setDepthTexture_accepts_basic_or_none_witness :
  GodraysCompositorMaterial.sceneDepth
    (GodraysCompositorPass.fullscreenMaterial
       (GodraysPass.compositorPass
          (state_after
             (GodraysPass.setDepthTexture Scene.sceneDepthTexture
                (Some THREE.BasicDepthPacking) Scene.pass))))
  = Some Scene.sceneDepthTexture.
Proof.
  destruct (setDepthTexture_accepts_basic_or_none Scene.sceneDepthTexture
              (Some THREE.BasicDepthPacking) Scene.pass) as [_ H].
  rewrite (H eq_refl). reflexivity.
Defined.

(** ** Configuration calls in either order *)

Lemma setDepthTexture_state (depthTexture : THREE.Texture)
    (depthPacking : option THREE.DepthPackingStrategies) (self : GodraysPass.t) :
  state_after (GodraysPass.setDepthTexture depthTexture depthPacking self)
  = let self1 :=
      GodraysPass.set_illumPass
        (GodraysIllumPass.set_material
           (GodraysMaterial.set_sceneDepth (Some depthTexture)
              (GodraysIllumPass.material (GodraysPass.illumPass self)))
           (GodraysPass.illumPass self)) self in
    if GodraysIllumPass.unsupportedPacking depthPacking then self1
    else
      GodraysPass.set_compositorPass
        {| GodraysCompositorPass.fullscreenMaterial :=
             GodraysCompositorMaterial.set_sceneDepth (Some depthTexture)
               (GodraysCompositorPass.fullscreenMaterial
                  (GodraysPass.compositorPass self)) |} self1.
Proof.
  unfold GodraysPass.setDepthTexture, GodraysIllumPass.setDepthTexture,
    GodraysCompositorPass.setDepthTexture, bind, GodraysPass.onIllum,
    GodraysPass.onCompositor, zoom, modify.
  destruct (GodraysIllumPass.unsupportedPacking depthPacking); reflexivity.
Qed.

Lemma setParams_state (partialParams : PartialParams.t) (self : GodraysPass.t) :
  state_after (GodraysPass.setParams partialParams self)
  = match THREE.PointLight.shadow
            (GodraysPassProps.pointLight (GodraysPass.props self)) with
    | None => self
    | Some sh =>
        GodraysPass.set_compositorPass
          {| GodraysCompositorPass.fullscreenMaterial :=
               GodraysCompositorMaterial.updateUniforms
                 (GodraysPassParams.edgeStrength (populateParams partialParams))
                 (GodraysPassParams.edgeRadius (populateParams partialParams))
                 (GodraysPassParams.color (populateParams partialParams))
                 (GodraysCompositorPass.fullscreenMaterial
                    (GodraysPass.compositorPass self)) |}
          (GodraysPass.set_illumPass
             (GodraysIllumPass.set_material
                (GodraysIllumPass.assignUniforms
                   (GodraysPassProps.pointLight (GodraysPass.props self))
                   (GodraysPassProps.camera (GodraysPass.props self))
                   sh (populateParams partialParams)
                   (GodraysIllumPass.material (GodraysPass.illumPass self)))
                (GodraysPass.illumPass self))
             self)
    end.
Proof.
  destruct (THREE.PointLight.shadow _) as [sh|] eqn:Hsh.
  - now rewrite (setParams_with_shadow _ _ sh Hsh).
  - now rewrite (setParams_without_shadow _ _ Hsh).
Qed.

(** [setSize], [setParams] and [setDepthTexture] write disjoint uniforms: any
    two of them leave the pass in the same state whichever is called first,
    also when one of them throws. *)
Theorem configuration_calls_commute (width height : number)
    (partialParams : PartialParams.t) (depthTexture : THREE.Texture)
    (depthPacking : option THREE.DepthPackingStrategies) (self : GodraysPass.t) :
  state_after (GodraysPass.setSize width height
                 (state_after (GodraysPass.setParams partialParams self)))
  = state_after (GodraysPass.setParams partialParams
                   (state_after (GodraysPass.setSize width height self))) /\
  state_after (GodraysPass.setSize width height
                 (state_after
                    (GodraysPass.setDepthTexture depthTexture depthPacking self)))
  = state_after (GodraysPass.setDepthTexture depthTexture depthPacking
                   (state_after (GodraysPass.setSize width height self))) /\
  state_after (GodraysPass.setParams partialParams
                 (state_after
                    (GodraysPass.setDepthTexture depthTexture depthPacking self)))
  = state_after (GodraysPass.setDepthTexture depthTexture depthPacking
                   (state_after (GodraysPass.setParams partialParams self))).
Proof.
  destruct self as [rt [mat flag [[pos cast [sh|]] cam] lp] cp rts];
    destruct depthPacking as [[|]|];
    repeat split.
Qed.

(** ** Frames *)

(** What [render] does before it draws, it does once: run again on the
    illumination pass it left, it completes the same way and changes
    nothing. *)
Lemma beforeRender_settles (self : GodraysIllumPass.t) :
  GodraysIllumPass.beforeRender
    (state_after (GodraysIllumPass.beforeRender self))
  = (completion (GodraysIllumPass.beforeRender self),
     state_after (GodraysIllumPass.beforeRender self)).
Proof.
  rewrite (beforeRender_cases self). cbv zeta.
  destruct (GodraysIllumPass.shadowMapSet self) eqn:Hset.
  - cbn [state_after completion fst snd].
    rewrite beforeRender_cases. cbv zeta. now rewrite Hset.
  - destruct (THREE.PointLight.shadow _) as [sh|] eqn:Hsh.
    + destruct (THREE.PointLightShadow.map sh) as [m|] eqn:Hmap.
      * cbn [state_after completion fst snd].
        rewrite beforeRender_cases. reflexivity.
      * cbn [state_after completion fst snd].
        rewrite beforeRender_cases. cbv zeta. now rewrite Hset, Hsh, Hmap.
    + cbn [state_after completion fst snd].
      rewrite beforeRender_cases. cbv zeta. now rewrite Hset, Hsh.
Qed.

(** A second [render] with the same input buffer, with no host change in
    between, completes as the first did and leaves the pass exactly as the
    first left it: whatever a frame writes into the pass (the one-time uniform
    update, the flag, the compositor's [sceneDiffuse]) is written by the first
    frame. *)
Theorem render_again_changes_nothing
    (inputBuffer outputBuffer outputBuffer' : THREE.WebGLRenderTarget.t)
    (r : WebGLRenderer.t) (self : GodraysPass.t) :
  let first := GodraysPass.render inputBuffer outputBuffer (r, self) in
  let second := GodraysPass.render inputBuffer outputBuffer' (state_after first) in
  completion second = completion first /\
  snd (state_after second) = snd (state_after first).
Proof.
  cbv zeta.
  rewrite (pass_render_unfold inputBuffer outputBuffer r self).
  pose proof (beforeRender_settles (GodraysPass.illumPass self)) as Hsettle.
  destruct (GodraysIllumPass.beforeRender (GodraysPass.illumPass self))
    as [[[]|e] ip'];
    cbn [state_after completion fst snd] in Hsettle |- *;
    rewrite pass_render_unfold;
    cbn [GodraysPass.illumPass GodraysPass.set_illumPass
         GodraysPass.set_compositorPass];
    rewrite Hsettle; split; reflexivity.
Qed.

(** ** What no sequence of calls changes *)

Lemma render_state (inputBuffer outputBuffer : THREE.WebGLRenderTarget.t)
    (r : WebGLRenderer.t) (self : GodraysPass.t) :
  exists ip',
    (ip' = GodraysPass.illumPass self \/
     exists sh,
       GodraysIllumPass.shadowMapSet (GodraysPass.illumPass self) = false /\
       ip' = GodraysIllumPass.set_shadowMapSet true
               (GodraysIllumPass.set_material
                  (GodraysIllumPass.assignUniforms
                     (GodraysPassProps.pointLight (GodraysPass.props self))
                     (GodraysPassProps.camera (GodraysPass.props self))
                     sh
                     (GodraysIllumPass.lastParams (GodraysPass.illumPass self))
                     (GodraysIllumPass.material (GodraysPass.illumPass self)))
                  (GodraysPass.illumPass self))) /\
    (snd (state_after (GodraysPass.render inputBuffer outputBuffer (r, self)))
     = GodraysPass.set_illumPass ip' self \/
     snd (state_after (GodraysPass.render inputBuffer outputBuffer (r, self)))
     = GodraysPass.set_compositorPass
         {| GodraysCompositorPass.fullscreenMaterial :=
              GodraysCompositorMaterial.set_sceneDiffuse
                (Some (THREE.WebGLRenderTarget.texture inputBuffer))
                (GodraysCompositorPass.fullscreenMaterial
                   (GodraysPass.compositorPass self)) |}
         (GodraysPass.set_illumPass ip' self)).
Proof.
  rewrite pass_render_unfold, beforeRender_cases. cbv zeta.
  unfold GodraysPass.props.
  destruct (GodraysIllumPass.shadowMapSet (GodraysPass.illumPass self)).
  - eexists. split; [left; reflexivity | right; reflexivity].
  - destruct (THREE.PointLight.shadow _) as [sh|].
    + destruct (THREE.PointLightShadow.map sh).
      * eexists. split; [right; exists sh; split; reflexivity | right; reflexivity].
      * eexists. split; [left; reflexivity | right; reflexivity].
    + eexists. split; [left; reflexivity | left; reflexivity].
Qed.

Lemma perform_fixedParts (w : WebGLRenderer.t * GodraysPass.t) (a : HostAction) :
  fixedParts (snd (perform w a)) = fixedParts (snd w).
Proof.
  destruct w as [r self]. destruct a; cbn [perform fst snd].
  - rewrite setParams_state. now destruct (THREE.PointLight.shadow _).
  - reflexivity.
  - rewrite setDepthTexture_state. cbv zeta.
    now destruct (GodraysIllumPass.unsupportedPacking depthPacking).
  - destruct (render_state inputBuffer outputBuffer r self)
      as (ip' & [-> | (sh & _ & ->)] & [-> | ->]); reflexivity.
  - reflexivity.
  - reflexivity.
  - reflexivity.
Qed.

Lemma new_lastParams (light : THREE.PointLight.t) (camera : THREE.Camera.t)
    (partialParams : PartialParams.t) (self : GodraysPass.t) :
  GodraysPass.new light camera partialParams = Normal self ->
  GodraysIllumPass.lastParams (GodraysPass.illumPass self)
    = populateParams partialParams /\
  GodraysIllumPass.shadowMapSet (GodraysPass.illumPass self) = false /\
  GodraysPass.props self
    = {| GodraysPassProps.pointLight := light;
         GodraysPassProps.camera := camera |}.
Proof.
  intros Hnew.
  destruct (THREE.PointLight.shadow light) as [sh|] eqn:E.
  - rewrite (new_with_shadow_state light camera partialParams sh E) in Hnew.
    injection Hnew as <-. repeat split.
  - unfold GodraysPass.new in Hnew.
    rewrite illum_new_without_shadow in Hnew by exact E. discriminate.
Qed.

(** Whatever the host does with a pass, in whatever order and whether or not
    calls throw, three things stay as the constructor made them: [lastParams]
    of the illumination pass (so it always holds the constructor's populated
    parameters, never those of a later [setParams]), the texture of the
    godrays render target, and the texture the compositor samples as
    [godrays]. *)
Theorem constructor_choices_are_permanent (actions : list HostAction)
    (r : WebGLRenderer.t) (self : GodraysPass.t) :
  fixedParts (snd (performAll actions (r, self))) = fixedParts self /\
  (forall light camera partialParams,
     GodraysPass.new light camera partialParams = Normal self ->
     GodraysIllumPass.lastParams
       (GodraysPass.illumPass (snd (performAll actions (r, self))))
     = populateParams partialParams).
Proof.
  assert (H : forall w, fixedParts (snd (performAll actions w)) = fixedParts (snd w)).
  { induction actions as [|a actions IH]; intros w.
    - reflexivity.
    - cbn [performAll fold_left]. fold (performAll actions (perform w a)).
      rewrite IH. apply perform_fixedParts. }
  split.
  - apply (H (r, self)).
  - intros light camera partialParams Hnew.
    specialize (H (r, self)). unfold fixedParts in H. cbn [snd] in H.
    injection H as H _ _. rewrite H.
    apply (new_lastParams _ _ _ _ Hnew).
Qed.

Lemma constructor_choices_are_permanent_witness :
  GodraysIllumPass.lastParams
    (GodraysPass.illumPass
       (snd (performAll
               [ SetParams (Scene.densityOnly 1);
                 Render Scene.inputBuffer Scene.outputBuffer;
                 HostUpdates (Scene.lightWithShadowMap 7) Scene.camera;
                 Render Scene.inputBuffer Scene.outputBuffer ]
               (Scene.renderer, Scene.pass))))
  = defaultParams.
Proof.
  destruct (constructor_choices_are_permanent
              [ SetParams (Scene.densityOnly 1);
                Render Scene.inputBuffer Scene.outputBuffer;
                HostUpdates (Scene.lightWithShadowMap 7) Scene.camera;
                Render Scene.inputBuffer Scene.outputBuffer ]
              Scene.renderer Scene.pass) as [_ H].
  exact (H _ _ _ scene_pass_constructed).
Defined.

Lemma perform_latched (w : WebGLRenderer.t * GodraysPass.t) (a : HostAction) :
  (fst (latched (snd w)) = true -> fst (latched (snd (perform w a))) = true) /\
  (snd (latched (snd w)) = true -> snd (latched (snd (perform w a))) = true).
Proof.
  destruct w as [r self]. unfold latched.
  destruct a; cbn [perform fst snd].
  - rewrite setParams_state.
    destruct (THREE.PointLight.shadow _); split; intros H; exact H.
  - split; intros H; exact H.
  - rewrite setDepthTexture_state. cbv zeta.
    destruct (GodraysIllumPass.unsupportedPacking depthPacking);
      split; intros H; exact H.
  - destruct (render_state inputBuffer outputBuffer r self)
      as (ip' & [-> | (sh & _ & ->)] & [-> | ->]);
      split; intros H; (exact H || reflexivity).
  - split; intros H; exact H.
  - split; intros H; exact H.
  - split; intros H; [exact H | reflexivity].
Qed.

(** The one-time flags are never cleared: once [shadowMapSet] is set, and once
    the blue-noise texture is in its uniform, they stay so through every later
    call; and while [shadowMapSet] is set, no [render] touches the
    illumination pass. *)
Theorem one_time_flags_stay_set (actions : list HostAction)
    (r : WebGLRenderer.t) (self : GodraysPass.t) :
  let self' := snd (performAll actions (r, self)) in
  (GodraysIllumPass.shadowMapSet (GodraysPass.illumPass self) = true ->
   GodraysIllumPass.shadowMapSet (GodraysPass.illumPass self') = true /\
   forall inputBuffer outputBuffer r',
     GodraysPass.illumPass
       (snd (state_after
               (GodraysPass.render inputBuffer outputBuffer (r', self'))))
     = GodraysPass.illumPass self') /\
  (GodraysMaterial.blueNoise
     (GodraysIllumPass.material (GodraysPass.illumPass self)) <> None ->
   GodraysMaterial.blueNoise
     (GodraysIllumPass.material (GodraysPass.illumPass self')) <> None).
Proof.
  assert (H : forall w,
    (fst (latched (snd w)) = true ->
     fst (latched (snd (performAll actions w))) = true) /\
    (snd (latched (snd w)) = true ->
     snd (latched (snd (performAll actions w))) = true)).
  { induction actions as [|a actions IH]; intros w.
    - split; intros H; exact H.
    - cbn [performAll fold_left]. fold (performAll actions (perform w a)).
      destruct (IH (perform w a)) as [IH1 IH2].
      destruct (perform_latched w a) as [P1 P2].
      split; intros H; [apply IH1, P1, H | apply IH2, P2, H]. }
  cbv zeta. destruct (H (r, self)) as [H1 H2]. unfold latched in H1, H2.
  cbn [fst snd] in H1, H2. split.
  - intros Hset. specialize (H1 Hset). split; [exact H1|].
    intros inputBuffer outputBuffer r'.
    apply render_keeps_illumPass. left. exact H1.
  - intros Hnoise.
    destruct (GodraysMaterial.blueNoise
                (GodraysIllumPass.material (GodraysPass.illumPass self)));
      [|congruence].
    specialize (H2 eq_refl).
    destruct (GodraysMaterial.blueNoise _); [discriminate | discriminate].
Qed.

Lemma one_time_flags_stay_set_witness :
  GodraysIllumPass.shadowMapSet
    (GodraysPass.illumPass
       (snd (performAll
               [ HostUpdates Scene.lightBeforeShadowRender Scene.camera;
                 SetParams (Scene.densityOnly 1);
                 Render Scene.inputBuffer Scene.outputBuffer ]
               (Scene.renderer,
                Scene.frame
                  (GodraysPass.hostUpdates (Scene.lightWithShadowMap 7)
                     Scene.camera Scene.pass)))))
  = true.
Proof.
  destruct (one_time_flags_stay_set
              [ HostUpdates Scene.lightBeforeShadowRender Scene.camera;
                SetParams (Scene.densityOnly 1);
                Render Scene.inputBuffer Scene.outputBuffer ]
              Scene.renderer
              (Scene.frame
                 (GodraysPass.hostUpdates (Scene.lightWithShadowMap 7)
                    Scene.camera Scene.pass))) as [H _].
  exact (proj1 (H eq_refl)).
Defined.

(** ** Sizes *)

Lemma perform_sizesConsistent (w : WebGLRenderer.t * GodraysPass.t)
    (a : HostAction) :
  sizesConsistent (snd w) -> sizesConsistent (snd (perform w a)).
Proof.
  destruct w as [r self]. intros H.
  destruct a; cbn [perform fst snd].
  - rewrite setParams_state. destruct (THREE.PointLight.shadow _); exact H.
  - rewrite setSize_unfold. repeat split.
  - rewrite setDepthTexture_state. cbv zeta.
    destruct (GodraysIllumPass.unsupportedPacking depthPacking); exact H.
  - destruct (render_state inputBuffer outputBuffer r self)
      as (ip' & [-> | (sh & _ & ->)] & [-> | ->]); exact H.
  - exact H.
  - exact H.
  - exact H.
Qed.

Lemma reachable_sizesConsistent (self : GodraysPass.t) :
  reachable self -> sizesConsistent self.
Proof.
  induction 1 as [light camera pp self Hnew
                 | pp self _ IH | w h self _ IH | t d self _ IH
                 | i o r self _ IH | l c self _ IH | v self _ IH
                 | w h self _ IH].
  - destruct (THREE.PointLight.shadow light) as [sh|] eqn:E.
    + rewrite (new_with_shadow_state light camera pp sh E) in Hnew.
      injection Hnew as <-. repeat split.
    + unfold GodraysPass.new in Hnew.
      rewrite illum_new_without_shadow in Hnew by exact E. discriminate.
  - exact (perform_sizesConsistent (Scene.renderer, self) (SetParams pp) IH).
  - exact (perform_sizesConsistent (Scene.renderer, self) (SetSize w h) IH).
  - exact (perform_sizesConsistent (Scene.renderer, self) (SetDepthTexture t d) IH).
  - exact (perform_sizesConsistent (r, self) (Render i o) IH).
  - exact IH.
  - exact IH.
  - exact IH.
Qed.

(** In every state a host can reach, the three sizes agree: the illumination
    material's [resolution] is the size of the godrays render target, and that
    size is [Math.ceil] of half the compositor's [resolution], from the 1 by 1
    of a new pass on and after every [setSize]. *)
Theorem sizes_stay_consistent (self : GodraysPass.t) :
  reachable self -> sizesConsistent self.
Proof.
  induction 1 as [light camera pp self Hnew
                 | pp self _ IH | w h self _ IH | t d self _ IH
                 | i o r self _ IH | l c self _ IH | v self _ IH
                 | w h self _ IH].
  - destruct (THREE.PointLight.shadow light) as [sh|] eqn:E.
    + rewrite (new_with_shadow_state light camera pp sh E) in Hnew.
      injection Hnew as <-. repeat split.
    + unfold GodraysPass.new in Hnew.
      rewrite illum_new_without_shadow in Hnew by exact E. discriminate.
  - exact (perform_sizesConsistent (Scene.renderer, self) (SetParams pp) IH).
  - exact (perform_sizesConsistent (Scene.renderer, self) (SetSize w h) IH).
  - exact (perform_sizesConsistent (Scene.renderer, self) (SetDepthTexture t d) IH).
  - exact (perform_sizesConsistent (r, self) (Render i o) IH).
  - exact IH.
  - exact IH.
  - exact IH.
Qed.

Lemma sizes_stay_consistent_witness :
  sizesConsistent
    (state_after
       (GodraysPass.setParams (Scene.densityOnly 1)
          (state_after (GodraysPass.setSize 801 601 Scene.pass)))).
Proof.
  apply sizes_stay_consistent.
  apply reach_setParams, reach_setSize.
  exact (reach_new _ _ _ _ scene_pass_constructed).
Defined.

(** For a dimension of at least [2^-1073], which every positive double but
    the smallest is, the godrays render target gets at least one pixel; for a
    dimension of at least one pixel it gets no more than the full resolution
    has; a dimension of zero or less gives zero or less. *)
Theorem setSize_target_within_full_resolution (width height : number)
    (self : GodraysPass.t) :
  let rt :=
    GodraysPass.godraysRenderTarget
      (state_after (GodraysPass.setSize width height self)) in
  (smallestHalvable <= width -> 1 <= THREE.WebGLRenderTarget.width rt) /\
  (1 <= width -> THREE.WebGLRenderTarget.width rt <= width) /\
  (width <= 0 -> THREE.WebGLRenderTarget.width rt <= 0) /\
  (smallestHalvable <= height -> 1 <= THREE.WebGLRenderTarget.height rt) /\
  (1 <= height -> THREE.WebGLRenderTarget.height rt <= height) /\
  (height <= 0 -> THREE.WebGLRenderTarget.height rt <= 0).
Proof.
  assert (Hpos : forall v, smallestHalvable <= v ->
                           1 <= Math.ceil (v * GODRAYS_RESOLUTION_SCALE)).
  { intros v Hsmall. unfold Math.ceil.
    assert (Hv : 0 < v).
    { apply Qlt_le_trans with smallestHalvable; [reflexivity | exact Hsmall]. }
    assert (Hh : 0 < v * GODRAYS_RESOLUTION_SCALE).
    { unfold GODRAYS_RESOLUTION_SCALE.
      apply Qmult_lt_0_compat; [exact Hv | reflexivity]. }
    pose proof (Qle_ceiling (v * GODRAYS_RESOLUTION_SCALE)) as Hc.
    pose proof (Qlt_le_trans _ _ _ Hh Hc) as Hlt.
    change 0 with (inject_Z 0) in Hlt. rewrite <- Zlt_Qlt in Hlt.
    change 1 with (inject_Z 1). rewrite <- Zle_Qle. lia. }
  assert (Hle : forall v, 1 <= v -> Math.ceil (v * GODRAYS_RESOLUTION_SCALE) <= v).
  { intros v Hv. unfold Math.ceil.
    destruct (Qlt_le_dec 2 v) as [Hbig | Hsmall].
    - apply Qlt_le_weak.
      apply Qlt_trans with (v * GODRAYS_RESOLUTION_SCALE + 1).
      + apply (proj2 (ceil_bounds _)).
      + unfold GODRAYS_RESOLUTION_SCALE. destruct v as [n d].
        unfold Qlt in Hbig |- *. cbn in Hbig |- *.
        rewrite ?Pos2Z.inj_mul. nia.
    - apply Qle_trans with 1; [|exact Hv].
      change 1 with (inject_Z 1). rewrite <- Zle_Qle.
      rewrite <- (Qceiling_Z 1). apply Qceiling_resp_le.
      unfold GODRAYS_RESOLUTION_SCALE. destruct v as [n d].
      unfold Qle in Hsmall |- *. cbn in Hsmall |- *.
      rewrite ?Pos2Z.inj_mul. lia. }
  assert (Hneg : forall v, v <= 0 -> Math.ceil (v * GODRAYS_RESOLUTION_SCALE) <= 0).
  { intros v Hv. unfold Math.ceil.
    change 0 with (inject_Z 0). rewrite <- Zle_Qle.
    rewrite <- (Qceiling_Z 0). apply Qceiling_resp_le.
    unfold GODRAYS_RESOLUTION_SCALE. destruct v as [n d].
    unfold Qle in Hv |- *. cbn in Hv |- *.
    rewrite ?Pos2Z.inj_mul. lia. }
  cbv zeta. rewrite setSize_unfold.
  cbn [state_after snd GodraysPass.godraysRenderTarget
       THREE.WebGLRenderTarget.setSize THREE.WebGLRenderTarget.width
       THREE.WebGLRenderTarget.height].
  repeat split; auto.
Qed.

Lemma setSize_target_within_full_resolution_witness :
  let rt :=
    GodraysPass.godraysRenderTarget
      (state_after (GodraysPass.setSize (1 # 3) 801 Scene.pass)) in
  1 <= THREE.WebGLRenderTarget.width rt /\
  THREE.WebGLRenderTarget.height rt <= 801.
Proof.
  cbv zeta.
  destruct (setSize_target_within_full_resolution (1 # 3) 801 Scene.pass)
    as (Hw & _ & _ & _ & Hh & _).
  split; [apply Hw; vm_compute; discriminate | apply Hh; discriminate].
Defined.

(** ** The draw log over many frames *)

Lemma framesInOrder_app (draws : list WebGLRenderer.DrawCall)
    (first second : WebGLRenderer.DrawCall) :
  framesInOrder draws -> isFrame first second ->
  framesInOrder (draws ++ [first; second]).
Proof.
  intros Hdraws Hframe. revert Hdraws.
  enough (H : (framesInOrder draws -> framesInOrder (draws ++ [first; second])) /\
              (forall d, framesInOrder (d :: draws) ->
                         framesInOrder ((d :: draws) ++ [first; second])))
    by exact (proj1 H).
  induction draws as [|d' draws [IH1 IH2]].
  - split.
    + intros _. cbn. split; [exact Hframe | exact I].
    + intros d Hd. destruct Hd.
  - split.
    + apply IH2.
    + intros d [Hd Hrest]. cbn [app framesInOrder].
      split; [exact Hd | apply IH1, Hrest].
Qed.

Lemma perform_reachable (w : WebGLRenderer.t * GodraysPass.t) (a : HostAction) :
  reachable (snd w) -> reachable (snd (perform w a)).
Proof.
  destruct w as [r self]. intros H.
  destruct a; cbn [perform fst snd]; now constructor.
Qed.

Lemma perform_framesInOrder (w : WebGLRenderer.t * GodraysPass.t)
    (a : HostAction) :
  godraysLinked (snd w) ->
  framesInOrder (WebGLRenderer.drawCalls (fst w)) ->
  framesInOrder (WebGLRenderer.drawCalls (fst (perform w a))).
Proof.
  destruct w as [r self]. intros Hlink Hlog.
  destruct a; cbn [perform fst snd]; try exact Hlog.
  rewrite pass_render_unfold.
  destruct (GodraysIllumPass.beforeRender (GodraysPass.illumPass self))
    as [[[]|e] ip']; cbn [state_after fst snd]; [|exact Hlog].
  cbn [WebGLRenderer.drawCalls]. rewrite <- app_assoc.
  apply framesInOrder_app; [exact Hlog|].
  exact Hlink.
Qed.

(** Over any sequence of calls on a pass the host can have, the renderer's
    draw log stays a sequence of whole frames: draw calls come in pairs, the
    illumination material into a render target and then the compositor
    material sampling that target's texture.  No call leaves an illumination
    draw without its compositor draw, or issues a compositor draw on its own,
    even when calls throw in between. *)
Theorem draw_log_is_whole_frames (actions : list HostAction)
    (r : WebGLRenderer.t) (self : GodraysPass.t) :
  reachable self ->
  framesInOrder (WebGLRenderer.drawCalls r) ->
  framesInOrder
    (WebGLRenderer.drawCalls (fst (performAll actions (r, self)))).
Proof.
  intros Hreach Hlog.
  enough (H : forall w,
            reachable (snd w) ->
            framesInOrder (WebGLRenderer.drawCalls (fst w)) ->
            framesInOrder (WebGLRenderer.drawCalls (fst (performAll actions w))))
    by exact (H (r, self) Hreach Hlog).
  induction actions as [|a actions IH]; intros w Hw Hl.
  - exact Hl.
  - cbn [performAll fold_left]. fold (performAll actions (perform w a)).
    apply IH.
    + now apply perform_reachable.
    + apply perform_framesInOrder; [now apply reachable_linked | exact Hl].
Qed.

Lemma draw_log_is_whole_frames_witness :
  framesInOrder
    (WebGLRenderer.drawCalls
       (fst (performAll
               [ Render Scene.inputBuffer Scene.outputBuffer;
                 SetDepthTexture Scene.sceneDepthTexture
                   (Some THREE.RGBADepthPacking);
                 HostUpdates Scene.lightWithoutShadow Scene.camera;
                 Render Scene.inputBuffer Scene.outputBuffer;
                 HostUpdates (Scene.lightWithShadowMap 7) Scene.camera;
                 SetRenderToScreen true;
                 Render Scene.inputBuffer Scene.outputBuffer ]
               (Scene.renderer, Scene.pass)))).
Proof.
  apply draw_log_is_whole_frames.
  - exact (reach_new _ _ _ _ scene_pass_constructed).
  - exact I.
Defined.

(** ** The one-time update after a parameter change *)



(** ** Where a frame is drawn *)

(** Every frame that is drawn is drawn at matching sizes: the illumination
    draw goes into the godrays render target, and the [resolution] uniform of
    the material drawn is that target's width and height, whatever sequence
    of calls led to the frame. *)
Theorem illumination_drawn_at_target_size
    (inputBuffer outputBuffer : THREE.WebGLRenderTarget.t)
    (r : WebGLRenderer.t) (self : GodraysPass.t) :
  reachable self ->
  let res := GodraysPass.render inputBuffer outputBuffer (r, self) in
  completion res = Normal tt ->
  exists (u : GodraysMaterial.t) (second : WebGLRenderer.DrawCall),
    WebGLRenderer.drawCalls (fst (state_after res))
    = WebGLRenderer.drawCalls r ++
      [ {| WebGLRenderer.target := Some (GodraysPass.godraysRenderTarget self);
           WebGLRenderer.fullscreenMaterial := WebGLRenderer.Illumination u |};
        second ] /\
    GodraysMaterial.resolution u
    = {| THREE.x :=
           THREE.WebGLRenderTarget.width (GodraysPass.godraysRenderTarget self);
         THREE.y :=
           THREE.WebGLRenderTarget.height (GodraysPass.godraysRenderTarget self) |}.
Proof.
  intros Hreach. apply reachable_sizesConsistent in Hreach.
  destruct Hreach as (Hres & _). cbv zeta.
  rewrite pass_render_unfold.
  pose proof (beforeRender_cases (GodraysPass.illumPass self)) as Hcases.
  cbv zeta in Hcases.
  destruct (GodraysIllumPass.beforeRender (GodraysPass.illumPass self))
    as [[[]|e] ip']; [|discriminate].
  intros _. cbn [state_after fst snd WebGLRenderer.drawCalls].
  eexists. eexists. split.
  - rewrite <- app_assoc. reflexivity.
  - revert Hcases.
    destruct (GodraysIllumPass.shadowMapSet (GodraysPass.illumPass self)).
    + intros [= ->]. exact Hres.
    + destruct (THREE.PointLight.shadow _) as [sh|]; [|discriminate].
      destruct (THREE.PointLightShadow.map sh); intros [= ->]; exact Hres.
Qed.

Lemma illumination_drawn_at_target_size_witness :
  exists (u : GodraysMaterial.t) (second : WebGLRenderer.DrawCall),
    WebGLRenderer.drawCalls
      (fst (state_after
              (GodraysPass.render Scene.inputBuffer Scene.outputBuffer
                 (Scene.renderer,
                  state_after (GodraysPass.setSize 801 601 Scene.pass)))))
    = [ {| WebGLRenderer.target :=
             Some {| THREE.WebGLRenderTarget.texture := THREE.GodraysTargetTexture;
                     THREE.WebGLRenderTarget.width := 401;
                     THREE.WebGLRenderTarget.height := 301 |};
           WebGLRenderer.fullscreenMaterial := WebGLRenderer.Illumination u |};
        second ] /\
    GodraysMaterial.resolution u = {| THREE.x := 401; THREE.y := 301 |}.
Proof.
  exact (illumination_drawn_at_target_size Scene.inputBuffer Scene.outputBuffer
           Scene.renderer
           (state_after (GodraysPass.setSize 801 601 Scene.pass))
           (reach_setSize _ _ _ (reach_new _ _ _ _ scene_pass_constructed))
           eq_refl).
Defined.

(** A frame that is drawn leaves the renderer pointed at the target of the
    compositor draw: the screen when [renderToScreen] is set, the output
    buffer otherwise.  With [renderToScreen] set the output buffer is not
    used at all: the call gives the same result whatever buffer is passed. *)
Theorem render_output_follows_renderToScreen
    (inputBuffer outputBuffer : THREE.WebGLRenderTarget.t)
    (r : WebGLRenderer.t) (self : GodraysPass.t) :
  let res := GodraysPass.render inputBuffer outputBuffer (r, self) in
  (completion res = Normal tt ->
   WebGLRenderer.renderTarget (fst (state_after res))
   = if GodraysPass.renderToScreen self then None else Some outputBuffer) /\
  (GodraysPass.renderToScreen self = true ->
   forall other : THREE.WebGLRenderTarget.t,
     GodraysPass.render inputBuffer other (r, self) = res) /\
  (completion res <> Normal tt -> fst (state_after res) = r).
Proof.
  cbv zeta. rewrite pass_render_unfold.
  split; [|split].
  - destruct (GodraysIllumPass.beforeRender _) as [[[]|e] ip'];
      [reflexivity | discriminate].
  - intros Hscreen other. rewrite pass_render_unfold. rewrite Hscreen.
    reflexivity.
  - destruct (GodraysIllumPass.beforeRender _) as [[[]|e] ip'];
      [intros H; exfalso; apply H; reflexivity | reflexivity].
Qed.

Lemma render_output_follows_renderToScreen_witness :
  WebGLRenderer.renderTarget
    (fst (state_after
            (GodraysPass.render Scene.inputBuffer Scene.outputBuffer
               (Scene.renderer,
                GodraysPass.set_renderToScreen true Scene.pass))))
  = None.
Proof.
  exact (proj1
    (render_output_follows_renderToScreen Scene.inputBuffer Scene.outputBuffer
       Scene.renderer (GodraysPass.set_renderToScreen true Scene.pass))
    eq_refl).
Defined.
